(** * WaterRower S4 driver and activity recorder

    A shallow embedding of the TypeScript sources of the repository:

    - [waterrowers4.ts]     the serial protocol driver [WaterRowerS4]
                            ([onData], [parseAndPublishData], [send]);
    - [index.ts]            [Metric], [Unit], [Measurement], [SportingDevice];
    - [activityrecorder.ts] the recorder whose [stop] and [record] bodies are
                            commented out (module [ActivityRecorder]);
    - the single-file build that carries the same classes with a working
      [record] and [stop] (module [SingleFile]).

    The first, single-class version of the program, which opens the file on
    the first stroke, is not modelled.

    JavaScript numbers are IEEE 754 binary64 values, modelled by Rocq's
    primitive floats.  Objects that are shared between components (the
    [Measurement] records) live in an explicit heap and are referred to by
    address, so that aliasing is visible in the model. *)

From Stdlib Require Import ZArith List String Ascii Bool Lia.
From Stdlib Require Import DecimalString.
From Stdlib Require Import Floats.PrimFloat Floats.FloatOps Floats.SpecFloat.
From Stdlib Require Import Numbers.Cyclic.Int63.Uint63.
From stdpp Require Import base option list.

Open Scope Z_scope.

(* ================================================================== *)
(** * JavaScript primitives used by the sources *)
(* ================================================================== *)

Module Js.

(** Characters that string literals cannot spell. *)
Definition dq : string := String "034"%char EmptyString.
Definition LF : string := String "010"%char EmptyString.
Definition CRLF : string := String "013"%char LF.

(** [s.startsWith(p)] *)
Fixpoint startsWith (p s : string) : bool :=
  match p, s with
  | EmptyString, _ => true
  | String a p', String b s' => Ascii.eqb a b && startsWith p' s'
  | String _ _, EmptyString => false
  end.

Fixpoint drop (n : nat) (s : string) : string :=
  match n, s with
  | O, _ => s
  | S n', String _ s' => drop n' s'
  | S _, EmptyString => EmptyString
  end.

Fixpoint take (n : nat) (s : string) : string :=
  match n, s with
  | S n', String c s' => String c (take n' s')
  | _, _ => EmptyString
  end.

(** [s.substring(i, j)] for [i <= j]: indices beyond the end are clamped. *)
Definition substring (i j : nat) (s : string) : string :=
  take (j - i) (drop i s).

(** [s.endsWith(p)] *)
Definition endsWith (p s : string) : bool :=
  (String.length p <=? String.length s)%nat &&
  String.eqb (drop (String.length s - String.length p) s) p.

(** White space skipped by [parseInt], among the code units below 256:
    TAB, LF, VT, FF, CR, SP and NBSP. *)
Definition isWhiteSpace (c : ascii) : bool :=
  let n := Z.of_N (N_of_ascii c) in
  ((9 <=? n) && (n <=? 13)) || (n =? 32) || (n =? 160).

Fixpoint trimStart (s : string) : string :=
  match s with
  | String c s' => if isWhiteSpace c then trimStart s' else s
  | EmptyString => s
  end.

(** Value of a radix-16 digit. *)
Definition hexDigit (c : ascii) : option Z :=
  let n := Z.of_N (N_of_ascii c) in
  if (48 <=? n) && (n <=? 57) then Some (n - 48)
  else if (65 <=? n) && (n <=? 70) then Some (n - 55)
  else if (97 <=? n) && (n <=? 102) then Some (n - 87)
  else None.

(** The longest run of radix-16 digits at the start of [s]. *)
Fixpoint hexPrefix (s : string) : list Z :=
  match s with
  | String c s' =>
      match hexDigit c with
      | Some d => d :: hexPrefix s'
      | None => []
      end
  | EmptyString => []
  end.

Definition hexValue (ds : list Z) : Z :=
  fold_left (fun acc d => 16 * acc + d) ds 0.

Definition stripSign (s : string) : Z * string :=
  match s with
  | String "-"%char r => (-1, r)
  | String "+"%char r => (1, r)
  | _ => (1, s)
  end.

Definition strip0x (s : string) : string :=
  match s with
  | String "0"%char (String x r) =>
      if Ascii.eqb x "x"%char || Ascii.eqb x "X"%char then r else s
  | _ => s
  end.

(** [parseInt(s, 16)].  [None] stands for [NaN].  The two zeros are not
    told apart: the only use is [parseInt(..) || 0], where both are falsy. *)
Definition parseInt16 (s : string) : option Z :=
  let (sign, s2) := stripSign (trimStart s) in
  match hexPrefix (strip0x s2) with
  | [] => None
  | ds => Some (sign * hexValue ds)
  end.

(** [n || 0] for the result of [parseInt]. *)
Definition orZero (n : option Z) : Z :=
  match n with
  | Some z => z
  | None => 0
  end.

(** Template-literal rendering of an integer-valued number. *)
Definition intToString (z : Z) : string :=
  NilZero.string_of_int (Z.to_int z).

(** The number that holds the integer [z] (exact for |z| < 2^53). *)
Definition ofZ (z : Z) : float :=
  if z <? 0 then PrimFloat.opp (PrimFloat.of_uint63 (Uint63.of_Z (- z)))
  else PrimFloat.of_uint63 (Uint63.of_Z z).

(** [isNaN(x)] and [x === 0] on numbers. *)
Definition isNaN (x : float) : bool := negb (PrimFloat.eqb x x).
Definition isZero (x : float) : bool := PrimFloat.eqb x PrimFloat.zero.

(** The integer [n] nearest to [10 * m * 2^e], the larger one on a tie:
    the digits that [toFixed(1)] prints for the magnitude [m * 2^e]. *)
Definition tenths (m : positive) (e : Z) : Z :=
  if 0 <=? e then 10 * Z.pos m * 2 ^ e
  else (20 * Z.pos m + 2 ^ (- e)) / 2 ^ (- e + 1).

(** [2^k <= m * 2^e], for [0 <= k]. *)
Definition atLeast (k : Z) (m : positive) (e : Z) : bool :=
  if 0 <=? e then 2 ^ k <=? Z.pos m * 2 ^ e
  else 2 ^ k * 2 ^ (- e) <=? Z.pos m.

(** [parseFloat(x.toFixed(1))].
    - NaN and the infinities print as such and parse back to themselves;
    - both zeros print as "0.0";
    - a magnitude of 2^49 or more has a spacing of at least 1/8 between
      neighbouring numbers, so the nearest number to its nearest tenth is
      [x] itself (this also covers the magnitudes of 1e21 and more, which
      [toFixed] prints in full);
    - otherwise the printed decimal is [n / 10] with [n = tenths m e]
      below 2^53, and its nearest number is the correctly rounded
      quotient of [n] by 10. *)
Definition parseFloat_toFixed1 (x : float) : float :=
  match Prim2SF x with
  | S754_nan => x
  | S754_infinity _ => x
  | S754_zero _ => PrimFloat.zero
  | S754_finite s m e =>
      if atLeast 49 m e then x
      else
        let r := PrimFloat.div (ofZ (tenths m e)) (ofZ 10) in
        if s then PrimFloat.opp r else r
  end.

(** The integer held by the finite number [m * 2^e], when it is one and
    lies below 2^53. *)
Definition integerValue (m : positive) (e : Z) : option Z :=
  if 0 <=? e then
    (if Z.pos m * 2 ^ e <? 2 ^ 53 then Some (Z.pos m * 2 ^ e) else None)
  else if Z.pos m mod 2 ^ (- e) =? 0 then Some (Z.pos m / 2 ^ (- e))
  else None.

(** [x.toString()], as template literals and [publish] apply it.  An
    integer below 2^53 prints as its decimal digits.  The other finite
    numbers print as the shortest decimal that reads back as [x]: the
    argument [shortest] prints them, and [Js.shortest] below is the one of
    the language. *)
Definition toString (shortest : float -> string) (x : float) : string :=
  match Prim2SF x with
  | S754_nan => "NaN"
  | S754_infinity s => if s then "-Infinity" else "Infinity"
  | S754_zero _ => "0"
  | S754_finite s m e =>
      match integerValue m e with
      | Some n => ((if s then "-" else "") ++ intToString n)%string
      | None => shortest x
      end
  end.

(** The ends of the interval of the reals that round to [m * 2^e], in
    units of [2^(e - 2)]: half way to the neighbouring numbers.  The
    number below a power of two is at half the distance. *)
Definition below (m : positive) (e : Z) : Z :=
  if (Z.pos m =? 2 ^ 52) && (-1074 <? e) then 4 * Z.pos m - 1
  else 4 * Z.pos m - 2.

Definition above (m : positive) : Z := 4 * Z.pos m + 2.

(** [10^t / 2^(e - 2)] as the quotient of two positive integers. *)
Definition scaleP (e t : Z) : Z := 10 ^ Z.max t 0 * 2 ^ Z.max (2 - e) 0.
Definition scaleQ (e t : Z) : Z := 10 ^ Z.max (- t) 0 * 2 ^ Z.max (e - 2) 0.

(** The real [a / u], in units of [2^(e - 2)], rounds to [m * 2^e]: it
    lies between the two ends, which ties to the even significand allow
    it to reach. *)
Definition rounds (m : positive) (e a u : Z) : bool :=
  let lo := below m e * u in
  let hi := above m * u in
  if Z.even (Z.pos m) then (lo <=? a) && (a <=? hi)
  else (lo <? a) && (a <? hi).

(** The decimal [s * 10^t] reads back as [m * 2^e]. *)
Definition readsAs (m : positive) (e s t : Z) : bool :=
  rounds m e (s * scaleP e t) (scaleQ e t).

(** The multiple of [10^t] that reads back as [m * 2^e] and is closest to
    it, the even one of two at the same distance. *)
Definition closest (m : positive) (e t : Z) : option Z :=
  let p := scaleP e t in
  let u := scaleQ e t in
  let q := 4 * Z.pos m * u in
  let c1 := q / p in
  let c2 := c1 + 1 in
  let ok s := (0 <? s) && rounds m e (s * p) u in
  match ok c1, ok c2 with
  | true, true =>
      let d1 := q - c1 * p in
      let d2 := c2 * p - q in
      Some (if d1 <? d2 then c1 else if d2 <? d1 then c2
            else if Z.even c1 then c1 else c2)
  | true, false => Some c1
  | false, true => Some c2
  | false, false => None
  end.

(** The first [t], counting down, that has such a multiple: the fewest
    digits. *)
Fixpoint digitsFrom (fuel : nat) (m : positive) (e t : Z) : Z * Z :=
  match closest m e t with
  | Some s => (s, t)
  | None =>
      match fuel with
      | O => (4 * Z.pos m * scaleQ e t / scaleP e t, t)
      | S k => digitsFrom k m e (t - 1)
      end
  end.

(** [s] and [t] of the shortest decimal [s * 10^t] that reads back as
    [m * 2^e].  No power of ten above [2^(b + 1)] can round to it, where
    [b] is the binary exponent, and 17 digits always suffice. *)
Definition digits (m : positive) (e : Z) : Z * Z :=
  let b := Z.log2 (Z.pos m) + e in
  digitsFrom 24 m e ((b + 1) * 30103 / 100000 + 1).

Fixpoint zeros (n : nat) : string :=
  match n with
  | O => EmptyString
  | S k => String "0"%char (zeros k)
  end.

(** The text of [s * 10^t], with [k] the number of digits of [s] and
    [n = t + k] the position of the decimal point. *)
Definition decimalText (s t : Z) : string :=
  let ds := intToString s in
  let k := Z.of_nat (String.length ds) in
  let n := t + k in
  if (k <=? n) && (n <=? 21) then (ds ++ zeros (Z.to_nat (n - k)))%string
  else if (0 <? n) && (n <=? 21) then
    (take (Z.to_nat n) ds ++ "." ++ drop (Z.to_nat n) ds)%string
  else if (-6 <? n) && (n <=? 0) then
    ("0." ++ zeros (Z.to_nat (- n)) ++ ds)%string
  else
    let x := n - 1 in
    let sign : string := if 0 <=? x then "+"%string else "-"%string in
    let exponent := (sign ++ intToString (Z.abs x))%string in
    if k =? 1 then (ds ++ "e" ++ exponent)%string
    else (take 1 ds ++ "." ++ drop 1 ds ++ "e" ++ exponent)%string.

(** [Number::toString(x)] in radix 10, by the digits: the fewest digits
    that read back as [x], and of those the closest to [x]. *)
Definition shortest (x : float) : string :=
  match Prim2SF x with
  | S754_nan => "NaN"
  | S754_infinity s => if s then "-Infinity" else "Infinity"
  | S754_zero _ => "0"
  | S754_finite sg m e =>
      let (s, t) := digits m e in
      let sign : string := if sg then "-"%string else EmptyString in
      (sign ++ decimalText s t)%string
  end.

End Js.

(* ================================================================== *)
(** * Data model ([index.ts]) *)
(* ================================================================== *)

Inductive Metric :=
  distance | power | total_cycles | speed | cadence | split | heart_rate.

Inductive Unit :=
  u_m | u_watts | u_cycles | u_m_per_s | u_spm | u_s_per_500m | u_bpm.

#[global] Instance Metric_eq_dec : EqDecision Metric.
Proof. solve_decision. Defined.

#[global] Instance Unit_eq_dec : EqDecision Unit.
Proof. solve_decision. Defined.

(** The string each member of the union type is at run time. *)
Definition metric_name (m : Metric) : string :=
  match m with
  | distance => "distance"
  | power => "power"
  | total_cycles => "total_cycles"
  | speed => "speed"
  | cadence => "cadence"
  | split => "split"
  | heart_rate => "heart_rate"
  end.

Definition unit_name (u : Unit) : string :=
  match u with
  | u_m => "m"
  | u_watts => "watts"
  | u_cycles => "cycles"
  | u_m_per_s => "m/s"
  | u_spm => "spm"
  | u_s_per_500m => "s/500 m"
  | u_bpm => "bpm"
  end.

Record Measurement := mkMeasurement {
  value : float;
  unit : Unit;
  metric : Metric
}.

(** [measurement.value = v] *)
Definition set_value (v : float) (m : Measurement) : Measurement :=
  {| value := v; unit := unit m; metric := metric m |}.

(** Addresses of [Measurement] objects in the heap. *)
Abbreviation ref := nat.

(** The two classes that extend [SportingDevice]. *)
Inductive Device := HeartRateMonitor | WaterRowerS4.

(** What a [setInterval] handle runs. *)
Inductive Callback :=
  | SendDistanceQuery   (* () => this.send("IRD057") *)
  | RecordRow.          (* () => this.record() *)

Record Interval := mkInterval {
  handle : nat;
  every : Z;
  callback : Callback
}.

(** A write stream: its path, the chunks written so far (oldest first) and
    whether [close] was called on it.  Neither copy of the recorder class
    calls [close], so no operation below sets the flag. *)
Record File := mkFile {
  path : string;
  chunks : list string;
  closed : bool
}.

(** Fields of the [WaterRowerS4] object. *)
Record WaterRowerS4State := mkWaterRower {
  port : bool;                          (* is [this.port] set *)
  lastStrokeTimestamp : option Z;
  activityTimeout : option nat;
  wr_measurements : list ref
}.

(** Fields of the [ActivityRecorder] object. *)
Record ActivityRecorderState := mkRecorder {
  recordingInterval : option nat;
  fitTimestampStart : Z;
  fileWriter : option nat;
  sportingDevices : list Device;
  rec_measurements : list ref
}.

(** The program state: the heap of shared [Measurement] objects, the three
    component objects and what the Node runtime has been asked to do. *)
Record World := mkWorld {
  heap : list Measurement;
  waterRower : WaterRowerS4State;
  hr_measurements : list ref;           (* [HeartRateMonitor.measurements] *)
  activityRecorder : ActivityRecorderState;
  serial : list string;                 (* [port.write], oldest first *)
  mqtt : list (string * float);         (* [mqttClient.publish] *)
  subscriptions : list string;          (* [mqttClient.subscribe] *)
  console : list string;
  intervals : list Interval;            (* running [setInterval] timers *)
  timersMade : nat;
  files : list File
}.

(** Timestamps are [Math.floor(Date.now() / 1000) - GARMIN_EPOCH]; clock
    readings are integers far below 2^53, for which the floored quotient is
    the integer one, so they are computed in [Z]. *)
Definition GARMIN_EPOCH : Z := 631065600.

(* ------------------------------------------------------------------ *)
(** ** Field updates *)

Definition set_heap (h : list Measurement) (w : World) : World :=
  mkWorld h (waterRower w) (hr_measurements w) (activityRecorder w) (serial w)
    (mqtt w) (subscriptions w) (console w) (intervals w) (timersMade w) (files w).

Definition set_waterRower (d : WaterRowerS4State) (w : World) : World :=
  mkWorld (heap w) d (hr_measurements w) (activityRecorder w) (serial w)
    (mqtt w) (subscriptions w) (console w) (intervals w) (timersMade w) (files w).

Definition set_hr_measurements (l : list ref) (w : World) : World :=
  mkWorld (heap w) (waterRower w) l (activityRecorder w) (serial w)
    (mqtt w) (subscriptions w) (console w) (intervals w) (timersMade w) (files w).

Definition set_activityRecorder (a : ActivityRecorderState) (w : World) : World :=
  mkWorld (heap w) (waterRower w) (hr_measurements w) a (serial w)
    (mqtt w) (subscriptions w) (console w) (intervals w) (timersMade w) (files w).

Definition set_serial (l : list string) (w : World) : World :=
  mkWorld (heap w) (waterRower w) (hr_measurements w) (activityRecorder w) l
    (mqtt w) (subscriptions w) (console w) (intervals w) (timersMade w) (files w).

Definition set_mqtt (l : list (string * float)) (w : World) : World :=
  mkWorld (heap w) (waterRower w) (hr_measurements w) (activityRecorder w) (serial w)
    l (subscriptions w) (console w) (intervals w) (timersMade w) (files w).

Definition set_subscriptions (l : list string) (w : World) : World :=
  mkWorld (heap w) (waterRower w) (hr_measurements w) (activityRecorder w) (serial w)
    (mqtt w) l (console w) (intervals w) (timersMade w) (files w).

Definition set_console (l : list string) (w : World) : World :=
  mkWorld (heap w) (waterRower w) (hr_measurements w) (activityRecorder w) (serial w)
    (mqtt w) (subscriptions w) l (intervals w) (timersMade w) (files w).

Definition set_intervals (l : list Interval) (n : nat) (w : World) : World :=
  mkWorld (heap w) (waterRower w) (hr_measurements w) (activityRecorder w) (serial w)
    (mqtt w) (subscriptions w) (console w) l n (files w).

Definition set_files (l : list File) (w : World) : World :=
  mkWorld (heap w) (waterRower w) (hr_measurements w) (activityRecorder w) (serial w)
    (mqtt w) (subscriptions w) (console w) (intervals w) (timersMade w) l.

Definition set_lastStrokeTimestamp (t : option Z) (w : World) : World :=
  let d := waterRower w in
  set_waterRower
    (mkWaterRower (port d) t (activityTimeout d) (wr_measurements d)) w.

Definition set_activityTimeout (t : option nat) (w : World) : World :=
  let d := waterRower w in
  set_waterRower
    (mkWaterRower (port d) (lastStrokeTimestamp d) t (wr_measurements d)) w.

Definition set_port (p : bool) (w : World) : World :=
  let d := waterRower w in
  set_waterRower
    (mkWaterRower p (lastStrokeTimestamp d) (activityTimeout d) (wr_measurements d)) w.

Definition set_recordingInterval (t : option nat) (w : World) : World :=
  let a := activityRecorder w in
  set_activityRecorder
    (mkRecorder t (fitTimestampStart a) (fileWriter a) (sportingDevices a)
       (rec_measurements a)) w.

Definition set_fitTimestampStart (t : Z) (w : World) : World :=
  let a := activityRecorder w in
  set_activityRecorder
    (mkRecorder (recordingInterval a) t (fileWriter a) (sportingDevices a)
       (rec_measurements a)) w.

Definition set_fileWriter (f : option nat) (w : World) : World :=
  let a := activityRecorder w in
  set_activityRecorder
    (mkRecorder (recordingInterval a) (fitTimestampStart a) f (sportingDevices a)
       (rec_measurements a)) w.

(* ------------------------------------------------------------------ *)
(** ** The runtime: console, serial port, MQTT client, timers, files *)

Definition console_log (s : string) (w : World) : World :=
  set_console (console w ++ [s]) w.

Definition port_write (s : string) (w : World) : World :=
  set_serial (serial w ++ [s]) w.

(** [mqttClient.publish(topic, value.toString())].  The payload is kept as
    the number: the subscriber reads it back with [parseFloat], which
    returns the number that [toString] printed. *)
Definition mqtt_publish (topic : string) (v : float) (w : World) : World :=
  set_mqtt (mqtt w ++ [(topic, v)]) w.

Definition mqtt_subscribe (topic : string) (w : World) : World :=
  set_subscriptions (subscriptions w ++ [topic]) w.

Definition setInterval (cb : Callback) (ms : Z) (w : World) : nat * World :=
  (timersMade w,
   set_intervals (intervals w ++ [mkInterval (timersMade w) ms cb])
     (S (timersMade w)) w).

Definition clearInterval (h : nat) (w : World) : World :=
  set_intervals
    (List.filter (fun i => negb (Nat.eqb (handle i) h)) (intervals w))
    (timersMade w) w.

Definition createWriteStream (p : string) (w : World) : nat * World :=
  (List.length (files w), set_files (files w ++ [mkFile p [] false]) w).

Definition append_chunk (c : string) (f : File) : File :=
  mkFile (path f) (chunks f ++ [c]) (closed f).

Definition stream_write (fd : nat) (c : string) (w : World) : World :=
  set_files (alter (append_chunk c) fd (files w)) w.

(* ------------------------------------------------------------------ *)
(** ** The heap of [Measurement] objects *)

(** [refs.find(m => p(m))] over a list of object references. *)
Definition find (h : list Measurement) (p : Measurement -> bool)
    (refs : list ref) : option ref :=
  List.find (fun r => match h !! r with Some m => p m | None => false end) refs.

(** [refs.find(m => m.metric === x)] *)
Definition find_metric (h : list Measurement) (x : Metric)
    (refs : list ref) : option ref :=
  find h (fun m => bool_decide (metric m = x)) refs.

(** [r.value = v] *)
Definition assign (r : ref) (v : float) (w : World) : World :=
  set_heap (alter (set_value v) r (heap w)) w.

(** [new] of the objects in a [measurements] field initialiser. *)
Definition alloc (ms : list Measurement) (w : World) : list ref * World :=
  (seq (List.length (heap w)) (List.length ms), set_heap (heap w ++ ms) w).

(* ------------------------------------------------------------------ *)
(** ** [SportingDevice] *)

Definition device_type (d : Device) : string :=
  match d with
  | HeartRateMonitor => "heart_rate_monitor"
  | WaterRowerS4 => "waterrower"
  end.

Definition device_measurements (d : Device) (w : World) : list ref :=
  match d with
  | HeartRateMonitor => hr_measurements w
  | WaterRowerS4 => wr_measurements (waterRower w)
  end.

Definition topic (d : Device) (m : Metric) : string :=
  (device_type d ++ "/" ++ metric_name m)%string.

(** [this.publish(measurement)] *)
Definition publish (d : Device) (r : ref) (w : World) : World :=
  match heap w !! r with
  | Some m => mqtt_publish (topic d (metric m)) (value m) w
  | None => w
  end.

(* ================================================================== *)
(** * The protocol driver: class [WaterRowerS4] *)
(* ================================================================== *)

Module Driver.

(** The objects of the [measurements] field initialiser. *)
Definition measurements : list Measurement :=
  [ mkMeasurement PrimFloat.zero u_m distance;
    mkMeasurement PrimFloat.zero u_watts power;
    mkMeasurement PrimFloat.zero u_cycles total_cycles;
    mkMeasurement PrimFloat.zero u_m_per_s speed;
    mkMeasurement PrimFloat.zero u_spm cadence;
    mkMeasurement PrimFloat.zero u_s_per_500m split ].

(** [send]: a write on the port once it exists, a console line before. *)
Definition send (value : string) (w : World) : World :=
  if port (waterRower w) then port_write (value ++ Js.CRLF) w
  else console_log "Communication needs to be initialized first." w.

(** [if (this.lastStrokeTimestamp)]: [undefined], [null] and 0 are falsy. *)
Definition truthy (t : option Z) : option Z :=
  match t with
  | Some t => if t =? 0 then None else Some t
  | None => None
  end.

(** [parseInt(data.substring(6, 10), 16) || 0] *)
Definition decode (data : string) : Z :=
  Js.orZero (Js.parseInt16 (Js.substring 6 10 data)).

(** [m.value = v; this.publish(m)] on the object found for [x], and an
    early [return] when there is none. *)
Definition update (x : Metric) (v : float) (w : World) : option World :=
  match find_metric (heap w) x (wr_measurements (waterRower w)) with
  | Some r => Some (publish WaterRowerS4 r (assign r v w))
  | None => None
  end.

(** [parseAndPublishData(data, metric)], with [now] the reading of
    [Date.now()].  Timestamps are integers below 2^53, so [now - last] is
    exact and is computed in [Z]. *)
Definition parseAndPublishData (data : string) (m : Metric) (now : Z)
    (w : World) : World :=
  let value := decode data in
  match m with
  | distance =>
      match update distance (Js.ofZ value) w with
      | Some w' => w'
      | None => w
      end
  | power =>
      match update power (Js.ofZ value) w with
      | Some w' => w'
      | None => w
      end
  | cadence =>
      match truthy (lastStrokeTimestamp (waterRower w)) with
      | Some last =>
          let msSinceLastStroke := now - last in
          let cadence_value :=
            Js.parseFloat_toFixed1
              (PrimFloat.div (Js.ofZ (60 * 1000)) (Js.ofZ msSinceLastStroke)) in
          match update cadence cadence_value w with
          | Some w' => set_lastStrokeTimestamp (Some now) w'
          | None => w                   (* [return] inside the [if] *)
          end
      | None => set_lastStrokeTimestamp (Some now) w
      end
  | speed =>
      match update speed (PrimFloat.div (Js.ofZ value) (Js.ofZ 100)) w with
      | Some w' =>
          if value =? 0 then w'
          else
            let secondsPer500m :=
              PrimFloat.div (Js.ofZ 50000) (Js.ofZ value) in
            match update split secondsPer500m w' with
            | Some w'' => w''
            | None => w'
            end
      | None => w
      end
  | total_cycles =>
      match update total_cycles (Js.ofZ value) w with
      | Some w' => w'
      | None => w
      end
  | _ => w
  end.

(** The body of the [SS] rule. *)
Definition strokeStart (now : Z) (w : World) : World :=
  let w := parseAndPublishData "" cadence now w in
  let w := send "IRD088" w in
  match activityTimeout (waterRower w) with
  | None =>
      let (h, w) := setInterval SendDistanceQuery 500 w in
      set_activityTimeout (Some h) w
  | Some _ => w
  end.

(** [onData]: seven independent [if]s on the received line. *)
Definition onData (stringData : string) (now : Z) (w : World) : World :=
  let w :=
    if Js.startsWith "_WR_" stringData then send "IV?" w else w in
  let w :=
    if Js.startsWith "IV4" stringData then
      let firmwareVersion :=
        (Js.substring 3 5 stringData ++ "." ++ Js.substring 5 7 stringData)%string in
      console_log
        ("Using WaterRower S4 with firmware version " ++ firmwareVersion) w
    else w in
  let w :=
    if Js.startsWith "SS" stringData then strokeStart now w else w in
  let w :=
    if Js.startsWith "IDD088" stringData then
      send "IRD140" (parseAndPublishData stringData power now w)
    else w in
  let w :=
    if Js.startsWith "IDD140" stringData then
      parseAndPublishData stringData total_cycles now w
    else w in
  let w :=
    if Js.startsWith "IDD057" stringData then
      send "IRD14A" (parseAndPublishData stringData distance now w)
    else w in
  if Js.startsWith "IDD14A" stringData then
    parseAndPublishData stringData speed now w
  else w.

(** The 500 ms timer set by the first stroke. *)
Definition onDistanceTimer (w : World) : World := send "IRD057" w.

(** [this.measurements.forEach(m => { m.value = 0 })] *)
Definition zero_all (w : World) : World :=
  fold_left (fun w r => assign r PrimFloat.zero w)
    (wr_measurements (waterRower w)) w.

(** [start], with [found] telling whether [findDevice] returns a port.
    The listener that [port.on("data", this.onData)] registers is what the
    event loop below calls on [SerialData].  Every call of [start]
    registers it once more: a line that reaches the listener [n] times is
    the event [SerialData] [n] times in a row. *)
Definition start (found : bool) (w : World) : World :=
  if negb (port (waterRower w)) && negb found then
    console_log "No WaterRower found. Please check the USB connection." w
  else
    send "USB" (zero_all (set_port true w)).

(** [reset] of the single-file build. *)
Definition reset (w : World) : World :=
  let w :=
    match activityTimeout (waterRower w) with
    | Some h => set_activityTimeout None (clearInterval h w)
    | None => w
    end in
  let w := send "RST" w in
  let w :=
    fold_left (fun w r => publish WaterRowerS4 r (assign r PrimFloat.zero w))
      (wr_measurements (waterRower w)) w in
  set_lastStrokeTimestamp None w.

End Driver.

(** [device.reset()]: only [WaterRowerS4] overrides the empty method. *)
Definition device_reset (d : Device) (w : World) : World :=
  match d with
  | WaterRowerS4 => Driver.reset w
  | HeartRateMonitor => w
  end.

(* ================================================================== *)
(** * The recorder: class [ActivityRecorder] *)
(* ================================================================== *)

(** A call either returns or throws a [TypeError] (a property read on
    [undefined]); the world is the one reached at that point. *)
Inductive Outcome :=
  | Ok (w : World)
  | TypeError (w : World).

Definition andThen (o : Outcome) (k : World -> Outcome) : Outcome :=
  match o with
  | Ok w => k w
  | TypeError w => TypeError w
  end.

Notation "o >>> k" := (andThen o k) (at level 51, left associativity).

Definition world_of (o : Outcome) : World :=
  match o with
  | Ok w => w
  | TypeError w => w
  end.

(** [this.fileWriter.write(chunk)] *)
Definition fileWriter_write (chunk : string) (w : World) : Outcome :=
  match fileWriter (activityRecorder w) with
  | Some fd => Ok (stream_write fd chunk w)
  | None => TypeError w
  end.

(** A template-literal hole with a quoted integer. *)
Definition quoted (z : Z) : string :=
  (Js.dq ++ Js.intToString z ++ Js.dq)%string.

(** The parts that both copies of the class share word for word. *)
Module Recorder.

(** The constructor, with [now] the clock reading of the field initialiser:
    [this.measurements.push(...device.measurements)] for every device. *)
Definition new (devices : list Device) (now : Z) (w : World) : World :=
  set_activityRecorder
    (mkRecorder None (now / 1000 - GARMIN_EPOCH) None devices
       (flat_map (fun d => device_measurements d w) devices)) w.

(** The ["message"] handler of the recorder's MQTT client. *)
Definition onMessage (topic_ : string) (payload : float) (w : World) : World :=
  match find (heap w) (fun m => Js.endsWith (metric_name (metric m)) topic_)
          (rec_measurements (activityRecorder w)) with
  | Some r => assign r payload w
  | None => w
  end.

(** The subscriptions made by [start]. *)
Definition subscribeAll (w : World) : World :=
  fold_left
    (fun w d =>
       fold_left
         (fun w r =>
            match heap w !! r with
            | Some m => mqtt_subscribe (topic d (metric m)) w
            | None => w
            end)
         (device_measurements d w) w)
    (sportingDevices (activityRecorder w)) w.

Definition header : string :=
  ("Type,Local Number,Message,Field 1,Value 1,Units 1,Field 2,Value 2,Units 2,"
   ++ "Field 3,Value 3,Units 3,Field 4,Value 4,Units 4,Field 5,Value 5,Units 5,"
   ++ "Field 6,Value 6,Units 6" ++ Js.LF)%string.

Definition file_id_data (start : Z) : string :=
  ("Data,0,file_id,serial_number," ++ quoted start ++ ",,time_created,"
   ++ quoted start ++ ",,manufacturer," ++ quoted 118 ++ ",,type,"
   ++ quoted 4 ++ "," ++ Js.LF)%string.

(** [openFile], with the two readings of [Date.now()] in program order. *)
Definition openFile (now1 now2 : Z) (w : World) : Outcome :=
  let w := set_fitTimestampStart (now2 / 1000 - GARMIN_EPOCH) w in
  let (fd, w) :=
    createWriteStream ("trainings/" ++ Js.intToString now1 ++ ".fit.csv") w in
  let w := set_fileWriter (Some fd) w in
  fileWriter_write header w
  >>> fileWriter_write
       ("Definition,0,file_id,serial_number,1,,time_created,1,,manufacturer,1,,type,1,"
        ++ Js.LF)
  >>> fileWriter_write (file_id_data (fitTimestampStart (activityRecorder w)))
  >>> fileWriter_write
       ("Definition,1,record,timestamp,1,,distance,1,,power,1,,cadence,1,,speed,1,,total_cycles,1,,heart_rate,1,,"
        ++ Js.LF)
  >>> fileWriter_write
       ("Definition,2,session,timestamp,1,,start_time,1,,total_elapsed_time,1,total_distance,1,,total_cycles,1,,sport,1,,sub_sport,1,"
        ++ Js.LF)
  >>> fileWriter_write
       ("Definition,3,activity,timestamp,1,,num_sessions,1," ++ Js.LF).

(** [this.recordingInterval = setInterval(() => this.record(), 1000)] *)
Definition startTimer (w : World) : World :=
  let (h, w) := setInterval RecordRow 1000 w in
  set_recordingInterval (Some h) w.

End Recorder.

(** ** [activityrecorder.ts]: [stop], [closeFile] and [record] are empty,
    their former bodies are comments. *)
Module ActivityRecorder.

Definition start (now1 now2 : Z) (w : World) : Outcome :=
  match recordingInterval (activityRecorder w) with
  | None =>
      let w := console_log "Starting new session" w in
      let w := Recorder.subscribeAll w in
      Recorder.openFile now1 now2 w >>> (fun w => Ok (Recorder.startTimer w))
  | Some _ => Ok w
  end.

Definition closeFile (w : World) : Outcome := Ok w.

Definition stop (exit : bool) (w : World) : Outcome := Ok w.

Definition record (w : World) : Outcome := Ok w.

End ActivityRecorder.

(** ** The single-file build: [start] resets the devices, [record] and
    [stop] write rows. *)
Module SingleFile.

Definition start (now1 now2 : Z) (w : World) : Outcome :=
  match recordingInterval (activityRecorder w) with
  | Some _ => Ok (console_log "A recording session is already running." w)
  | None =>
      let w := console_log "Starting new session" w in
      let w :=
        fold_left
          (fun w d =>
             let w := device_reset d w in
             fold_left
               (fun w r =>
                  match heap w !! r with
                  | Some m => mqtt_subscribe (topic d (metric m)) w
                  | None => w
                  end)
               (device_measurements d w) w)
          (sportingDevices (activityRecorder w)) w in
      Recorder.openFile now1 now2 w >>> (fun w => Ok (Recorder.startTimer w))
  end.

Section Rows.

(** How a number that is not an integer prints (see [Js.toString]). *)
Variable shortest : float -> string.

(** [`${m.metric},"${m.value}",${m.unit},`] *)
Definition field (m : Measurement) : string :=
  (metric_name (metric m) ++ "," ++ Js.dq ++ Js.toString shortest (value m)
   ++ Js.dq ++ "," ++ unit_name (unit m) ++ ",")%string.

Definition measurementIds : list Metric :=
  [distance; power; total_cycles; speed; cadence; heart_rate].

(** The body of the [forEach] callback in [record]. *)
Definition writeMeasurement (measurementId : Metric) (w : World) : Outcome :=
  match find_metric (heap w) measurementId
          (rec_measurements (activityRecorder w)) with
  | None =>
      Ok (console_log
            ("Measurement " ++ metric_name measurementId ++ " not found.") w)
  | Some r =>
      match heap w !! r with
      | Some m =>
          if Js.isNaN (value m) then
            Ok (console_log
                  ("Measurement " ++ metric_name measurementId
                   ++ " has invalid value.") w)
          else fileWriter_write (field m) w
      | None => Ok w
      end
  end.

Definition record_start (fitTimestamp : Z) : string :=
  ("Data,1,record,timestamp," ++ quoted fitTimestamp ++ ",s,")%string.

(** [record], the 1 Hz tick. *)
Definition record (now : Z) (w : World) : Outcome :=
  let total :=
    find_metric (heap w) total_cycles (rec_measurements (activityRecorder w)) in
  let idle :=
    match total with
    | Some r =>
        match heap w !! r with
        | Some m => Js.isZero (value m)
        | None => false
        end
    | None => false
    end in
  if idle then
    Ok (console_log "No activity detected yet, skipping data point." w)
  else
    let fitTimestamp := now / 1000 - GARMIN_EPOCH in
    fold_left (fun o id => o >>> writeMeasurement id) measurementIds
      (fileWriter_write (record_start fitTimestamp) w)
    >>> fileWriter_write Js.LF.

(** [`...,"${x.value}",...`] with [x] the result of a [find]: reading
    [value] of [undefined] throws. *)
Definition value_of (r : option ref) (w : World) : option float :=
  match r with
  | Some r => value <$> heap w !! r
  | None => None
  end.

Definition session_start (start : Z) : string :=
  ("Data,2,session,timestamp," ++ quoted start ++ ",s,start_time,"
   ++ quoted start ++ ",,")%string.

Definition activity_data (start : Z) : string :=
  ("Data,3,activity,timestamp," ++ quoted start ++ ",,num_sessions,"
   ++ quoted 1 ++ "," ++ Js.LF)%string.

(** [stop] *)
Definition stop (now : Z) (w : World) : Outcome :=
  let w :=
    match recordingInterval (activityRecorder w) with
    | Some h => set_recordingInterval None (clearInterval h w)
    | None => w
    end in
  let w := console_log "Finalizing workout file" w in
  let fitTimestampEnd := now / 1000 - GARMIN_EPOCH in
  let start := fitTimestampStart (activityRecorder w) in
  let sessionDuration := fitTimestampEnd - start in
  let distance_ :=
    find_metric (heap w) distance (rec_measurements (activityRecorder w)) in
  let strokes :=
    find_metric (heap w) total_cycles (rec_measurements (activityRecorder w)) in
  fileWriter_write (session_start start) w
  >>> fileWriter_write
        ("total_elapsed_time," ++ quoted sessionDuration ++ ",s,")
  >>> (fun w =>
         match value_of distance_ w with
         | Some v =>
             fileWriter_write
               ("total_distance," ++ Js.dq ++ Js.toString shortest v ++ Js.dq
                ++ ",m,") w
         | None => TypeError w
         end)
  >>> (fun w =>
         match value_of strokes w with
         | Some v =>
             fileWriter_write
               ("total_cycles," ++ Js.dq ++ Js.toString shortest v ++ Js.dq
                ++ ",cycles,") w
         | None => TypeError w
         end)
  >>> fileWriter_write
        ("sport," ++ quoted 15 ++ ",,sub_sport," ++ quoted 14 ++ "," ++ Js.LF)
  >>> fileWriter_write (activity_data start).

End Rows.

End SingleFile.

(* ================================================================== *)
(** * The program *)
(* ================================================================== *)

Definition empty_world : World :=
  mkWorld [] (mkWaterRower false None None []) []
    (mkRecorder None 0 None [] []) [] [] [] [] [] 0%nat [].

(** [new HeartRateMonitor()] *)
Definition new_HeartRateMonitor (w : World) : World :=
  let (refs, w) := alloc [mkMeasurement PrimFloat.zero u_bpm heart_rate] w in
  set_hr_measurements refs w.

(** [new WaterRowerS4()] *)
Definition new_WaterRowerS4 (w : World) : World :=
  let (refs, w) := alloc Driver.measurements w in
  set_waterRower (mkWaterRower false None None refs) w.

(** The objects of [index.ts], in the order it builds them; [now] is the
    clock reading when the recorder is built. *)
Definition boot (now : Z) : World :=
  Recorder.new [HeartRateMonitor; WaterRowerS4] now
    (new_WaterRowerS4 (new_HeartRateMonitor empty_world)).

(** The notification handler of [HeartRateMonitor], for a notification
    whose second byte [data[1]] is [bpm]. *)
Definition onHeartRate (bpm : Z) (w : World) : World :=
  match find_metric (heap w) heart_rate (hr_measurements w) with
  | Some r => publish HeartRateMonitor r (assign r (Js.ofZ bpm) w)
  | None => w
  end.

(** The two copies of the recorder class. *)
Inductive Build := Modular | Single.

(** What the event loop delivers. *)
Inductive Event :=
  | DriverStart (found : bool)
  | SerialData (line : string) (now : Z)
  | DistanceTimer
  | HeartRateData (bpm : Z)
  | MqttMessage (topic_ : string) (payload : float)
  | RecorderStart (now1 now2 : Z)
  | RecordTimer (now : Z)
  | RecorderStop (now : Z).

Definition running (cb : Callback) (w : World) : bool :=
  existsb
    (fun i => match callback i, cb with
              | SendDistanceQuery, SendDistanceQuery => true
              | RecordRow, RecordRow => true
              | _, _ => false
              end)
    (intervals w).

Section EventLoop.

Variable shortest : float -> string.
Variable build : Build.

(** One callback, run to completion.  A timer fires only while it is set,
    and the broker delivers only subscribed topics. *)
Definition step (e : Event) (w : World) : Outcome :=
  match e with
  | DriverStart found => Ok (Driver.start found w)
  | SerialData line now => Ok (Driver.onData line now w)
  | DistanceTimer =>
      if running SendDistanceQuery w then Ok (Driver.onDistanceTimer w)
      else Ok w
  | HeartRateData bpm => Ok (onHeartRate bpm w)
  | MqttMessage t payload =>
      if existsb (String.eqb t) (subscriptions w)
      then Ok (Recorder.onMessage t payload w)
      else Ok w
  | RecorderStart now1 now2 =>
      match build with
      | Modular => ActivityRecorder.start now1 now2 w
      | Single => SingleFile.start now1 now2 w
      end
  | RecordTimer now =>
      if running RecordRow w then
        match build with
        | Modular => ActivityRecorder.record w
        | Single => SingleFile.record shortest now w
        end
      else Ok w
  | RecorderStop now =>
      match build with
      | Modular => ActivityRecorder.stop true w
      | Single => SingleFile.stop shortest now w
      end
  end.

(** The event loop; an uncaught [TypeError] ends the process. *)
Definition run (es : list Event) (w : World) : Outcome :=
  fold_left (fun o e => o >>> step e) es (Ok w).

End EventLoop.

(* ================================================================== *)
(** * Vocabulary of the properties *)
(* ================================================================== *)

(** The object layout that [boot] builds: one [Measurement] per metric, the
    heart-rate object first, and the recorder holding the devices' own
    references. *)
Definition layout (w : World) : Prop :=
  List.map metric (heap w)
    = [heart_rate; distance; power; total_cycles; speed; cadence; split]
  /\ List.map unit (heap w)
    = [u_bpm; u_m; u_watts; u_cycles; u_m_per_s; u_spm; u_s_per_500m]
  /\ hr_measurements w = [0%nat]
  /\ wr_measurements (waterRower w) = [1; 2; 3; 4; 5; 6]%nat
  /\ rec_measurements (activityRecorder w) = [0; 1; 2; 3; 4; 5; 6]%nat
  /\ sportingDevices (activityRecorder w) = [HeartRateMonitor; WaterRowerS4].

(** The device that owns the object of a metric. *)
Definition owner (m : Metric) : Device :=
  match m with
  | heart_rate => HeartRateMonitor
  | _ => WaterRowerS4
  end.

(** The value the recorder reads for a metric, and the one its owner holds. *)
Definition cached (m : Metric) (w : World) : option float :=
  SingleFile.value_of
    (find_metric (heap w) m (rec_measurements (activityRecorder w))) w.

Definition held (m : Metric) (w : World) : option float :=
  SingleFile.value_of
    (find_metric (heap w) m (device_measurements (owner m) w)) w.

(** The seven rules of [onData]. *)
Inductive Rule := R_WR | R_IV4 | R_SS | R_IDD088 | R_IDD140 | R_IDD057 | R_IDD14A.

Definition rules : list Rule :=
  [R_WR; R_IV4; R_SS; R_IDD088; R_IDD140; R_IDD057; R_IDD14A].

Definition prefix_of (r : Rule) : string :=
  match r with
  | R_WR => "_WR_"
  | R_IV4 => "IV4"
  | R_SS => "SS"
  | R_IDD088 => "IDD088"
  | R_IDD140 => "IDD140"
  | R_IDD057 => "IDD057"
  | R_IDD14A => "IDD14A"
  end.

(** The rules whose test holds for a line. *)
Definition fired (line : string) : list Rule :=
  List.filter (fun r => Js.startsWith (prefix_of r) line) rules.

(** What each rule does when it fires. *)
Definition action (r : Rule) (line : string) (now : Z) (w : World) : World :=
  match r with
  | R_WR => Driver.send "IV?" w
  | R_IV4 =>
      console_log
        ("Using WaterRower S4 with firmware version "
         ++ Js.substring 3 5 line ++ "." ++ Js.substring 5 7 line) w
  | R_SS => Driver.strokeStart now w
  | R_IDD088 =>
      Driver.send "IRD140" (Driver.parseAndPublishData line power now w)
  | R_IDD140 => Driver.parseAndPublishData line total_cycles now w
  | R_IDD057 =>
      Driver.send "IRD14A" (Driver.parseAndPublishData line distance now w)
  | R_IDD14A => Driver.parseAndPublishData line speed now w
  end.

(** The payload field of a response line. *)
Definition payload (line : string) : string := Js.substring 6 10 line.

(** Four characters, all of them radix-16 digits. *)
Fixpoint all_hex (s : string) : bool :=
  match s with
  | String c s' =>
      match Js.hexDigit c with
      | Some _ => all_hex s'
      | None => false
      end
  | EmptyString => true
  end.

Definition is_hex4 (s : string) : bool :=
  Nat.eqb (String.length s) 4 && all_hex s.

(** The parts [parseInt] tells apart in a field: white space, a sign, the
    [0x] mark, radix-16 digits. *)
Fixpoint all_white (s : string) : bool :=
  match s with
  | String c s' => Js.isWhiteSpace c && all_white s'
  | EmptyString => true
  end.

Definition is_sign (c : ascii) : bool :=
  Ascii.eqb c "+"%char || Ascii.eqb c "-"%char.

Definition is_hex (c : ascii) : bool :=
  match Js.hexDigit c with
  | Some _ => true
  | None => false
  end.

Definition has_mark (s : string) : bool :=
  Js.startsWith "0x" s || Js.startsWith "0X" s.

(** The first character of [s] is there and satisfies [p]. *)
Definition first_is (p : ascii -> bool) (s : string) : bool :=
  match s with
  | String c _ => p c
  | EmptyString => false
  end.

(** The number that a string of radix-16 digits denotes: each digit counts
    for 16 to the power of the number of digits after it. *)
Fixpoint hex_number (s : string) : Z :=
  match s with
  | String c s' =>
      Js.orZero (Js.hexDigit c) * 16 ^ Z.of_nat (String.length s') + hex_number s'
  | EmptyString => 0
  end.

(** What no callback changes: the metric and unit of every object, and
    which objects each component refers to. *)
Definition shape (w : World) :=
  (List.map metric (heap w), List.map unit (heap w), hr_measurements w,
   wr_measurements (waterRower w), rec_measurements (activityRecorder w),
   sportingDevices (activityRecorder w)).

(** Where [boot] puts the object of each metric, and its unit. *)
Definition slot (m : Metric) : ref :=
  match m with
  | heart_rate => 0
  | distance => 1
  | power => 2
  | total_cycles => 3
  | speed => 4
  | cadence => 5
  | split => 6
  end%nat.

Definition unit_of (m : Metric) : Unit :=
  match m with
  | heart_rate => u_bpm
  | distance => u_m
  | power => u_watts
  | total_cycles => u_cycles
  | speed => u_m_per_s
  | cadence => u_spm
  | split => u_s_per_500m
  end.

(** The value of the object of a metric. *)
Definition reading (m : Metric) (w : World) : option float :=
  value <$> heap w !! slot m.

(** The worlds reached after each of a sequence of received lines. *)
Fixpoint feed (lines : list (string * Z)) (w : World) : list World :=
  match lines with
  | [] => []
  | (line, now) :: rest =>
      let w' := Driver.onData line now w in
      w' :: feed rest w'
  end.

(** The stroke counts the console reports along those lines, starting from
    the count [c]: an [IDD140] line carries a new count. *)
Fixpoint counts (c : Z) (lines : list (string * Z)) : list Z :=
  match lines with
  | [] => []
  | (line, _) :: rest =>
      let c' := if Js.startsWith "IDD140" line then Driver.decode line else c in
      c' :: counts c' rest
  end.

Fixpoint nondecreasing (c : Z) (cs : list Z) : Prop :=
  match cs with
  | [] => True
  | c' :: rest => c <= c' /\ nondecreasing c' rest
  end.

(** The console never reports a smaller count than the one before. *)
Fixpoint console_monotone (c : Z) (lines : list (string * Z)) : Prop :=
  match lines with
  | [] => True
  | (line, _) :: rest =>
      if Js.startsWith "IDD140" line
      then c <= Driver.decode line /\ console_monotone (Driver.decode line) rest
      else console_monotone c rest
  end.

(** [chunks] written one after the other on the stream [fd]. *)
Definition write_all (fd : nat) (cs : list string) (fs : list File) : list File :=
  fold_left (fun fs c => alter (append_chunk c) fd fs) cs fs.

(** The objects of [ids] that the recorder finds, in that order. *)
Fixpoint found (ids : list Metric) (w : World) : list Measurement :=
  match ids with
  | [] => []
  | x :: rest =>
      match heap w !! slot x with
      | Some m => m :: found rest w
      | None => found rest w
      end
  end.

Definition is_number (m : Measurement) : bool := negb (Js.isNaN (value m)).

(** What a template literal prints for the number [v]. *)
Definition printed (v : float) : string := Js.toString Js.shortest v.

(** A chunk that is written unless [v] is NaN. *)
Definition unless_NaN (v : float) (chunk : string) : list string :=
  if Js.isNaN v then [] else [chunk].

(** The count [c] is held by a number, which is 0 only when [c] is. *)
Definition count_held (c : Z) : bool :=
  negb (Js.isNaN (Js.ofZ c)) && Bool.eqb (Js.isZero (Js.ofZ c)) (c =? 0).

(** The count [c] prints as its decimal digits. *)
Definition count_printed (c : Z) : bool :=
  String.eqb (printed (Js.ofZ c)) (Js.intToString c).

(** The metrics a rule may write. *)
Definition writes (r : Rule) : list Metric :=
  match r with
  | R_WR | R_IV4 => []
  | R_SS => [cadence]
  | R_IDD088 => [power]
  | R_IDD140 => [total_cycles]
  | R_IDD057 => [distance]
  | R_IDD14A => [speed; split]
  end.

(** The six chunks that [stop] of the single-file build writes. *)
Definition summary (shortest : float -> string) (now : Z) (w : World) : list string :=
  let start := fitTimestampStart (activityRecorder w) in
  let v x :=
    match reading x w with
    | Some v => Js.toString shortest v
    | None => EmptyString
    end in
  [ SingleFile.session_start start;
    ("total_elapsed_time," ++ quoted (now / 1000 - GARMIN_EPOCH - start) ++ ",s,")%string;
    ("total_distance," ++ Js.dq ++ v distance ++ Js.dq ++ ",m,")%string;
    ("total_cycles," ++ Js.dq ++ v total_cycles ++ Js.dq ++ ",cycles,")%string;
    ("sport," ++ quoted 15 ++ ",,sub_sport," ++ quoted 14 ++ "," ++ Js.LF)%string;
    SingleFile.activity_data start ].

(** The chunks that [openFile] writes. *)
Definition preamble (start : Z) : list string :=
  [ Recorder.header;
    ("Definition,0,file_id,serial_number,1,,time_created,1,,manufacturer,1,,type,1,"
     ++ Js.LF)%string;
    Recorder.file_id_data start;
    ("Definition,1,record,timestamp,1,,distance,1,,power,1,,cadence,1,,speed,1,,total_cycles,1,,heart_rate,1,,"
     ++ Js.LF)%string;
    ("Definition,2,session,timestamp,1,,start_time,1,,total_elapsed_time,1,total_distance,1,,total_cycles,1,,sport,1,,sub_sport,1,"
     ++ Js.LF)%string;
    ("Definition,3,activity,timestamp,1,,num_sessions,1," ++ Js.LF)%string ].

(** What makes a recording session: the timers, the streams, and the
    recorder's handle on each. *)
Definition session (w : World) :=
  (intervals w, timersMade w, files w,
   recordingInterval (activityRecorder w), fileWriter (activityRecorder w)).

(** [x] is a number nearest to the rational [p / q], for [0 <= p] and
    [0 < q]: the distance of its exact value [m * 2^e] to [p / q] is at most
    half the spacing [2^e]. *)
Definition nearest (x : float) (p q : Z) : bool :=
  match Prim2SF x with
  | S754_zero _ => p =? 0
  | S754_finite false m e =>
      if 0 <=? e then 2 * Z.abs (q * Z.pos m * 2 ^ e - p) <=? q * 2 ^ e
      else 2 * Z.abs (q * Z.pos m - p * 2 ^ (- e)) <=? q
  | _ => false
  end.

(** The quotients of the [speed] branch are correctly rounded at [v]. *)
Definition pace_rounded (v : Z) : bool :=
  nearest (PrimFloat.div (Js.ofZ v) (Js.ofZ 100)) v 100
  && ((v =? 0) || nearest (PrimFloat.div (Js.ofZ 50000) (Js.ofZ v)) 50000 v).

(** [p] holds from [v] on, [fuel] times. *)
Fixpoint upto (fuel : nat) (v : Z) (p : Z -> bool) : bool :=
  match fuel with
  | O => true
  | S k => p v && upto k (v + 1) p
  end.


(* ================================================================== *)
(** * Properties of the line dispatch *)
(* ================================================================== *)

Section Dispatch.

(** Two prefixes of one string are comparable. *)
Lemma startsWith_comparable (p q s : string) :
  Js.startsWith p s = true -> Js.startsWith q s = true ->
  Js.startsWith p q = true \/ Js.startsWith q p = true.
Proof.
  revert q s. induction p as [|a p IH]; intros q s Hp Hq.
  - left. reflexivity.
  - destruct q as [|b q]; [right; reflexivity|].
    destruct s as [|c s]; [discriminate|]. simpl in Hp, Hq.
    apply andb_prop in Hp as [Hac Hp]. apply andb_prop in Hq as [Hbc Hq].
    apply Ascii.eqb_eq in Hac, Hbc. subst a b. simpl.
    rewrite Ascii.eqb_refl. simpl. eauto.
Qed.

(** No line carries two of the seven prefixes. *)
Lemma exclusive (r1 r2 : Rule) (line : string) :
  r1 <> r2 ->
  Js.startsWith (prefix_of r1) line = true ->
  Js.startsWith (prefix_of r2) line = false.
Proof.
  intros Hne H1. destruct (Js.startsWith (prefix_of r2) line) eqn:H2; [|reflexivity].
  destruct (startsWith_comparable _ _ _ H1 H2) as [C|C];
    destruct r1, r2; try congruence; vm_compute in C; discriminate.
Qed.

End Dispatch.

Ltac clash line :=
  match goal with
  | H1 : Js.startsWith ?p line = true, H2 : Js.startsWith ?q line = true |- _ =>
      exfalso;
      destruct (startsWith_comparable p q line H1 H2) as [C|C];
      vm_compute in C; discriminate C
  end.

Ltac split_rules line :=
  destruct (Js.startsWith "_WR_" line) eqn:?;
  destruct (Js.startsWith "IV4" line) eqn:?;
  destruct (Js.startsWith "SS" line) eqn:?;
  destruct (Js.startsWith "IDD088" line) eqn:?;
  destruct (Js.startsWith "IDD140" line) eqn:?;
  destruct (Js.startsWith "IDD057" line) eqn:?;
  destruct (Js.startsWith "IDD14A" line) eqn:?;
  try clash line.

Lemma fired_at_most_one (line : string) : (List.length (fired line) <= 1)%nat.
Proof.
  unfold fired, rules. cbn [List.filter prefix_of].
  split_rules line; cbn; lia.
Qed.

(** [onData] runs the action of the rule that fired, and nothing else. *)
Lemma onData_dispatch (line : string) (now : Z) (w : World) :
  Driver.onData line now w =
  match fired line with
  | r :: _ => action r line now w
  | [] => w
  end.
Proof.
  unfold Driver.onData, fired, rules. cbn [List.filter prefix_of].
  split_rules line; reflexivity.
Qed.

(** C7. For every received line at most one of the seven dispatch rules
    fires, [onData] then does what that one rule says, and a line that
    matches none of the prefixes leaves the whole state as it was: no
    measurement changes, nothing is published, nothing is sent. *)
Theorem dispatch_at_most_one_rule (line : string) (now : Z) (w : World) :
  (List.length (fired line) <= 1)%nat
  /\ (forall r1 r2, In r1 (fired line) -> In r2 (fired line) -> r1 = r2)
  /\ Driver.onData line now w =
       match fired line with
       | r :: _ => action r line now w
       | [] => w
       end
  /\ (fired line = [] -> Driver.onData line now w = w).
Proof.
  split; [apply fired_at_most_one|].
  split.
  - intros r1 r2 H1 H2. pose proof (fired_at_most_one line) as Hlen.
    destruct (fired line) as [|r [|r' l]]; simpl in *; try lia; intuition congruence.
  - split; [apply onData_dispatch|].
    intros Hnone. rewrite onData_dispatch, Hnone. reflexivity.
Qed.

Lemma dispatch_at_most_one_rule_witness :
  fired "hello" = [] /\ Driver.onData "hello" 5 (boot 0) = boot 0.
Proof.
  split; [reflexivity|].
  exact (proj2 (proj2 (proj2 (dispatch_at_most_one_rule "hello" 5 (boot 0))))
           eq_refl).
Defined.

(* ================================================================== *)
(** * Properties of the numeric decoding *)
(* ================================================================== *)

Section Decoding.

Lemma hexDigit_not_space (c : ascii) (d : Z) :
  Js.hexDigit c = Some d -> Js.isWhiteSpace c = false.
Proof.
  destruct c as [[] [] [] [] [] [] [] []]; vm_compute; congruence.
Qed.

Lemma hexDigit_no_sign (c : ascii) (d : Z) (r : string) :
  Js.hexDigit c = Some d -> Js.stripSign (String c r) = (1, String c r).
Proof.
  destruct c as [[] [] [] [] [] [] [] []]; vm_compute; congruence.
Qed.

Lemma hexDigit_not_x (c : ascii) (d : Z) :
  Js.hexDigit c = Some d ->
  Ascii.eqb c "x"%char || Ascii.eqb c "X"%char = false.
Proof.
  destruct c as [[] [] [] [] [] [] [] []]; vm_compute; congruence.
Qed.

Lemma hexDigit_range (c : ascii) (d : Z) :
  Js.hexDigit c = Some d -> 0 <= d < 16.
Proof.
  intros H. destruct c as [[] [] [] [] [] [] [] []]; vm_compute in H;
    try discriminate H; injection H as <-; lia.
Qed.

(** The field is what the line holds at offsets 6 to 9. *)
Lemma payload_at_offset (a b c d e f : ascii) (field rest : string) :
  String.length field = 4%nat ->
  payload (String a (String b (String c (String d (String e (String f
             (field ++ rest))))))) = field.
Proof.
  intros Hlen. unfold payload, Js.substring. cbn [Js.drop Nat.sub].
  destruct field as [|c1 [|c2 [|c3 [|c4 [|c5 field]]]]]; try discriminate Hlen.
  reflexivity.
Qed.

(** *** The steps of [parseInt] on a field given by its parts *)

Lemma trimStart_white (ws s : string) :
  all_white ws = true ->
  first_is Js.isWhiteSpace s = false ->
  Js.trimStart (ws ++ s) = s.
Proof.
  intros Hws Hs. induction ws as [|c ws IH]; cbn [append].
  - destruct s as [|c s]; [reflexivity|].
    cbn [first_is] in Hs. cbn [Js.trimStart]. rewrite Hs. reflexivity.
  - cbn [all_white] in Hws. apply andb_prop in Hws as [Hc Hws].
    cbn [Js.trimStart]. rewrite Hc. exact (IH Hws).
Qed.

Lemma stripSign_none (s : string) :
  first_is is_sign s = false -> Js.stripSign s = (1, s).
Proof.
  destruct s as [|c s]; [reflexivity|].
  destruct c as [[] [] [] [] [] [] [] []]; vm_compute; congruence.
Qed.

Lemma strip0x_none (s : string) : has_mark s = false -> Js.strip0x s = s.
Proof.
  unfold has_mark. intros H.
  destruct s as [|c [|x s]]; [reflexivity| |].
  - destruct c as [[] [] [] [] [] [] [] []]; reflexivity.
  - destruct c as [[] [] [] [] [] [] [] []]; try reflexivity.
    cbn [Js.strip0x]. cbn [Js.startsWith] in H.
    change (Ascii.eqb "0" "0") with true in H. cbn [andb] in H.
    rewrite !andb_true_r in H. rewrite (Ascii.eqb_sym x "x"%char),
      (Ascii.eqb_sym x "X"%char), H. reflexivity.
Qed.

(** The accumulation of [parseInt] gives each digit its positional
    weight. *)
Lemma hexValue_positional (ds rest : string) (acc : Z) :
  all_hex ds = true ->
  first_is is_hex rest = false ->
  fold_left (fun acc d => 16 * acc + d) (Js.hexPrefix (ds ++ rest)) acc
  = acc * 16 ^ Z.of_nat (String.length ds) + hex_number ds.
Proof.
  intros Hds Hrest. revert acc.
  induction ds as [|c ds IH]; intros acc; cbn [append].
  - destruct rest as [|c rest]; cbn [Js.hexPrefix]; [cbn; lia|].
    cbn [first_is] in Hrest. unfold is_hex in Hrest.
    destruct (Js.hexDigit c); [discriminate Hrest|]. cbn. lia.
  - cbn [all_hex] in Hds. cbn [Js.hexPrefix hex_number String.length].
    destruct (Js.hexDigit c) as [d|]; [|discriminate Hds].
    cbn [fold_left Js.orZero]. rewrite (IH Hds).
    rewrite Nat2Z.inj_succ, Z.pow_succ_r by lia. ring.
Qed.

Lemma hexPrefix_empty (ds rest : string) :
  all_hex ds = true ->
  first_is is_hex rest = false ->
  Js.hexPrefix (ds ++ rest) = [] -> hex_number ds = 0.
Proof.
  intros Hds Hrest H. destruct ds as [|c ds]; [reflexivity|].
  cbn [append Js.hexPrefix] in H. cbn [all_hex] in Hds.
  destruct (Js.hexDigit c); [discriminate H|discriminate Hds].
Qed.

(** Every string is made of such parts. *)
Lemma split_white (s : string) :
  exists ws s',
    s = (ws ++ s')%string /\ all_white ws = true
    /\ first_is Js.isWhiteSpace s' = false.
Proof.
  induction s as [|c s (ws & s' & -> & Hws & Hs')].
  - exists EmptyString, EmptyString. repeat split.
  - destruct (Js.isWhiteSpace c) eqn:E.
    + exists (String c ws), s'. cbn [append all_white]. rewrite E, Hws.
      repeat split. exact Hs'.
    + exists EmptyString, (String c (ws ++ s')). cbn [append first_is].
      repeat split. exact E.
Qed.

Lemma split_sign (s : string) :
  exists sg s',
    s = (sg ++ s')%string
    /\ (sg = "-"%string \/ sg = "+"%string
        \/ (sg = EmptyString /\ first_is is_sign s' = false)).
Proof.
  destruct s as [|c s].
  - exists EmptyString, EmptyString. split; [reflexivity|].
    right; right. split; reflexivity.
  - destruct (Ascii.eqb c "-"%char) eqn:Em;
      [apply Ascii.eqb_eq in Em as ->; exists "-"%string, s;
       split; [reflexivity|left; reflexivity]|].
    destruct (Ascii.eqb c "+"%char) eqn:Ep;
      [apply Ascii.eqb_eq in Ep as ->; exists "+"%string, s;
       split; [reflexivity|right; left; reflexivity]|].
    exists EmptyString, (String c s). split; [reflexivity|].
    right; right. split; [reflexivity|].
    cbn [first_is]. unfold is_sign. rewrite Em, Ep. reflexivity.
Qed.

Lemma split_mark (s : string) :
  exists mk s',
    s = (mk ++ s')%string
    /\ (mk = "0x"%string \/ mk = "0X"%string
        \/ (mk = EmptyString /\ has_mark s' = false)).
Proof.
  destruct (has_mark s) eqn:E.
  - unfold has_mark in E.
    destruct s as [|c [|x s]]; cbn [Js.startsWith] in E;
      rewrite ?andb_false_r, ?andb_true_r in E; try discriminate E.
    destruct (Ascii.eqb "0" c) eqn:E0; [|discriminate E].
    apply Ascii.eqb_eq in E0 as <-. cbn [andb] in E.
    apply orb_prop in E as [E | E]; apply Ascii.eqb_eq in E as <-.
    + exists "0x"%string, s. split; [reflexivity|left; reflexivity].
    + exists "0X"%string, s. split; [reflexivity|right; left; reflexivity].
  - exists EmptyString, s. split; [reflexivity|].
    right; right. split; [reflexivity|exact E].
Qed.

Lemma split_hex (s : string) :
  exists ds rest,
    s = (ds ++ rest)%string /\ all_hex ds = true
    /\ first_is is_hex rest = false.
Proof.
  induction s as [|c s (ds & rest & -> & Hds & Hrest)].
  - exists EmptyString, EmptyString. repeat split.
  - destruct (Js.hexDigit c) as [d|] eqn:E.
    + exists (String c ds), rest. cbn [append all_hex]. rewrite E.
      repeat split; assumption.
    + exists EmptyString, (String c (ds ++ rest)). cbn [append first_is].
      unfold is_hex. rewrite E. repeat split.
Qed.

(** [parseInt(field, 16) || 0] on a field given by its parts. *)
Lemma parseInt16_parts (ws sg mk ds rest : string) :
  all_white ws = true ->
  first_is Js.isWhiteSpace (sg ++ mk ++ ds ++ rest) = false ->
  sg = "-"%string \/ sg = "+"%string
  \/ (sg = EmptyString /\ first_is is_sign (mk ++ ds ++ rest) = false) ->
  mk = "0x"%string \/ mk = "0X"%string
  \/ (mk = EmptyString /\ has_mark (ds ++ rest) = false) ->
  all_hex ds = true ->
  first_is is_hex rest = false ->
  Js.orZero (Js.parseInt16 (ws ++ sg ++ mk ++ ds ++ rest))
  = (if String.eqb sg "-" then -1 else 1) * hex_number ds.
Proof.
  intros Hws Hfirst Hsg Hmk Hds Hrest.
  unfold Js.parseInt16. rewrite (trimStart_white ws _ Hws Hfirst).
  assert (Js.stripSign (sg ++ mk ++ ds ++ rest)
          = (if String.eqb sg "-" then -1 else 1, (mk ++ ds ++ rest)%string))
    as ->.
  { destruct Hsg as [-> | [-> | [-> Hno]]]; [reflexivity|reflexivity|].
    cbn [append String.eqb]. exact (stripSign_none _ Hno). }
  assert (Js.strip0x (mk ++ ds ++ rest) = (ds ++ rest)%string) as ->.
  { destruct Hmk as [-> | [-> | [-> Hno]]]; [reflexivity|reflexivity|].
    cbn [append]. exact (strip0x_none _ Hno). }
  pose proof (hexValue_positional ds rest 0 Hds Hrest) as Hv.
  fold (Js.hexValue (Js.hexPrefix (ds ++ rest))) in Hv.
  pose proof (hexPrefix_empty ds rest Hds Hrest) as He.
  destruct (Js.hexPrefix (ds ++ rest)) as [|d l] eqn:E.
  - cbn [Js.orZero]. rewrite (He eq_refl). lia.
  - cbn [Js.orZero]. rewrite Hv. lia.
Qed.

Lemma hexPrefix_digits (s : string) :
  Forall (fun d => 0 <= d < 16) (Js.hexPrefix s)
  /\ (List.length (Js.hexPrefix s) <= String.length s)%nat.
Proof.
  induction s as [|c s [IHd IHl]]; cbn [Js.hexPrefix String.length List.length].
  - split; [constructor|lia].
  - destruct (Js.hexDigit c) as [d|] eqn:E; cbn [List.length].
    + split; [constructor; [exact (hexDigit_range c d E)|exact IHd]|lia].
    + split; [constructor|lia].
Qed.

Lemma hexValue_bound (ds : list Z) :
  Forall (fun d => 0 <= d < 16) ds ->
  0 <= Js.hexValue ds < 16 ^ Z.of_nat (List.length ds).
Proof.
  unfold Js.hexValue. intros Hds.
  assert (forall acc, 0 <= acc ->
            acc * 16 ^ Z.of_nat (List.length ds)
            <= fold_left (fun acc d => 16 * acc + d) ds acc
            < (acc + 1) * 16 ^ Z.of_nat (List.length ds)) as Hgen.
  { induction Hds as [|d ds Hd Hds IH]; intros acc Hacc.
    - cbn. lia.
    - cbn [fold_left List.length]. rewrite Nat2Z.inj_succ, Z.pow_succ_r by lia.
      specialize (IH (16 * acc + d) ltac:(lia)).
      assert (0 < 16 ^ Z.of_nat (List.length ds)) by (apply Z.pow_pos_nonneg; lia).
      nia. }
  specialize (Hgen 0 ltac:(lia)). lia.
Qed.

Lemma length_take (n : nat) (s : string) : (String.length (Js.take n s) <= n)%nat.
Proof.
  revert s. induction n as [|n IH]; intros [|c s]; cbn; try lia.
  specialize (IH s). lia.
Qed.

Lemma length_trimStart (s : string) :
  (String.length (Js.trimStart s) <= String.length s)%nat.
Proof.
  induction s as [|c s IH]; cbn; [lia|].
  destruct (Js.isWhiteSpace c); cbn; lia.
Qed.

Lemma length_strip0x (s : string) :
  (String.length (Js.strip0x s) <= String.length s)%nat.
Proof.
  destruct s as [|c [|x s]]; [cbn; lia| |];
    destruct c as [[] [] [] [] [] [] [] []]; cbn [Js.strip0x];
    try (cbn [String.length]; lia).
  destruct (_ || _); cbn [String.length]; lia.
Qed.

(** Decoding is total and bounded: the value has at most four hex digits
    (three after a sign), so it is an integer that a number holds exactly. *)
Lemma decode_range (line : string) : - 65535 <= Driver.decode line <= 65535.
Proof.
  unfold Driver.decode, Js.parseInt16.
  pose proof (length_take 4 (Js.drop 6 line)) as Hlen.
  change (Js.take 4 (Js.drop 6 line)) with (Js.substring 6 10 line) in Hlen.
  pose proof (length_trimStart (Js.substring 6 10 line)) as Htrim.
  destruct (Js.stripSign (Js.trimStart (Js.substring 6 10 line))) as [sign s2] eqn:Es.
  assert ((sign = 1 \/ sign = -1) /\ (String.length s2 <= 4)%nat) as [Hsign Hs2].
  { unfold Js.stripSign in Es.
    destruct (Js.trimStart (Js.substring 6 10 line)) as [|c r].
    - injection Es as <- <-. cbn. split; [tauto|lia].
    - cbn [String.length] in Htrim.
      destruct c as [[] [] [] [] [] [] [] []]; injection Es as <- <-;
        cbn [String.length]; split; (tauto || lia). }
  pose proof (length_strip0x s2) as Hx.
  destruct (hexPrefix_digits (Js.strip0x s2)) as [Hd Hl].
  pose proof (hexValue_bound _ Hd) as Hv.
  assert (16 ^ Z.of_nat (List.length (Js.hexPrefix (Js.strip0x s2))) <= 16 ^ 4) as Hp.
  { apply Z.pow_le_mono_r; lia. }
  destruct (Js.hexPrefix (Js.strip0x s2)) as [|d ds]; cbn [Js.orZero]; [lia|].
  change (16 ^ 4) with 65536 in Hp.
  destruct Hsign as [-> | ->]; lia.
Qed.

(** C4, as amended.  The numeric payload is the field of at most four
    characters at offset 6, read the way [parseInt(field, 16)] reads it,
    and decoding never fails:
    - a field of four hex digits decodes to exactly their base-16 value,
      the digits 0-9, a-f and A-F counting for 0 to 15;
    - in general a field is made of white space, then an optional sign,
      then an optional 0x or 0X mark, then hex digits, then a rest that does
      not start with a hex digit; it decodes to the number the digits
      denote, negated after a minus sign, whatever the rest is, and to 0 when
      there are no digits;
    - every field is made of such parts;
    - so an empty field, and a field whose first character is neither white
      space nor a sign nor a hex digit, decode to 0;
    - every line decodes to an integer of at most four hex digits. *)
Theorem decode_reads_hex_field :
  (forall line c1 c2 c3 c4 d1 d2 d3 d4,
      payload line = String c1 (String c2 (String c3 (String c4 EmptyString))) ->
      Js.hexDigit c1 = Some d1 -> Js.hexDigit c2 = Some d2 ->
      Js.hexDigit c3 = Some d3 -> Js.hexDigit c4 = Some d4 ->
      Driver.decode line = 4096 * d1 + 256 * d2 + 16 * d3 + d4)
  /\ List.map Js.hexDigit (list_ascii_of_string "0123456789abcdefABCDEFgG/:@`")
     = [Some 0; Some 1; Some 2; Some 3; Some 4; Some 5; Some 6; Some 7;
        Some 8; Some 9; Some 10; Some 11; Some 12; Some 13; Some 14; Some 15;
        Some 10; Some 11; Some 12; Some 13; Some 14; Some 15;
        None; None; None; None; None; None]
  /\ (forall line ws sg mk ds rest,
      payload line = (ws ++ sg ++ mk ++ ds ++ rest)%string ->
      all_white ws = true ->
      first_is Js.isWhiteSpace (sg ++ mk ++ ds ++ rest) = false ->
      sg = "-"%string \/ sg = "+"%string
      \/ (sg = EmptyString /\ first_is is_sign (mk ++ ds ++ rest) = false) ->
      mk = "0x"%string \/ mk = "0X"%string
      \/ (mk = EmptyString /\ has_mark (ds ++ rest) = false) ->
      all_hex ds = true ->
      first_is is_hex rest = false ->
      Driver.decode line = (if String.eqb sg "-" then -1 else 1) * hex_number ds)
  /\ (forall line, exists ws sg mk ds rest,
      payload line = (ws ++ sg ++ mk ++ ds ++ rest)%string
      /\ all_white ws = true
      /\ first_is Js.isWhiteSpace (sg ++ mk ++ ds ++ rest) = false
      /\ (sg = "-"%string \/ sg = "+"%string
          \/ (sg = EmptyString /\ first_is is_sign (mk ++ ds ++ rest) = false))
      /\ (mk = "0x"%string \/ mk = "0X"%string
          \/ (mk = EmptyString /\ has_mark (ds ++ rest) = false))
      /\ all_hex ds = true
      /\ first_is is_hex rest = false)
  /\ (forall line, payload line = EmptyString -> Driver.decode line = 0)
  /\ (forall line c r,
      payload line = String c r ->
      Js.isWhiteSpace c = false -> is_sign c = false -> is_hex c = false ->
      Driver.decode line = 0)
  /\ (forall line, - 65535 <= Driver.decode line <= 65535).
Proof.
  assert (forall line ws sg mk ds rest,
      payload line = (ws ++ sg ++ mk ++ ds ++ rest)%string ->
      all_white ws = true ->
      first_is Js.isWhiteSpace (sg ++ mk ++ ds ++ rest) = false ->
      sg = "-"%string \/ sg = "+"%string
      \/ (sg = EmptyString /\ first_is is_sign (mk ++ ds ++ rest) = false) ->
      mk = "0x"%string \/ mk = "0X"%string
      \/ (mk = EmptyString /\ has_mark (ds ++ rest) = false) ->
      all_hex ds = true ->
      first_is is_hex rest = false ->
      Driver.decode line = (if String.eqb sg "-" then -1 else 1) * hex_number ds)
    as Hparts.
  { intros line ws sg mk ds rest Hp Hws Hfirst Hsg Hmk Hds Hrest.
    unfold Driver.decode. fold (payload line). rewrite Hp.
    apply parseInt16_parts; assumption. }
  split; [|split; [|split; [|split; [|split; [|split]]]]].
  - intros line c1 c2 c3 c4 d1 d2 d3 d4 Hp H1 H2 H3 H4.
    pose proof (hexDigit_not_space c1 d1 H1) as Hw.
    pose proof (hexDigit_no_sign c1 d1 EmptyString H1) as Hs.
    pose proof (hexDigit_not_x c2 d2 H2) as Hx.
    rewrite (Hparts line EmptyString EmptyString EmptyString
               (String c1 (String c2 (String c3 (String c4 EmptyString))))
               EmptyString).
    + cbn [String.eqb hex_number String.length]. rewrite H1, H2, H3, H4.
      cbn [Js.orZero]. change (Z.of_nat 3) with 3. change (Z.of_nat 2) with 2.
      change (Z.of_nat 1) with 1. change (Z.of_nat 0) with 0. lia.
    + rewrite Hp. reflexivity.
    + reflexivity.
    + cbn [append first_is]. exact Hw.
    + right; right. split; [reflexivity|].
      cbn [append first_is]. unfold is_sign.
      destruct c1 as [[] [] [] [] [] [] [] []]; vm_compute in Hs |- *;
        congruence.
    + right; right. split; [reflexivity|].
      unfold has_mark. cbn [append Js.startsWith].
      rewrite !andb_true_r, (Ascii.eqb_sym "x"%char c2),
        (Ascii.eqb_sym "X"%char c2).
      apply orb_false_iff in Hx as [-> ->]. rewrite !andb_false_r. reflexivity.
    + cbn [all_hex]. rewrite H1, H2, H3, H4. reflexivity.
    + reflexivity.
  - reflexivity.
  - exact Hparts.
  - intros line.
    destruct (split_white (payload line)) as (ws & s1 & Hp & Hws & Hs1).
    destruct (split_sign s1) as (sg & s2 & -> & Hsg).
    destruct (split_mark s2) as (mk & s3 & -> & Hmk).
    destruct (split_hex s3) as (ds & rest & -> & Hds & Hrest).
    exists ws, sg, mk, ds, rest. tauto.
  - intros line Hp. unfold Driver.decode. fold (payload line).
    rewrite Hp. reflexivity.
  - intros line c r Hp Hw Hs Hh.
    rewrite (Hparts line EmptyString EmptyString EmptyString EmptyString
               (String c r)).
    + reflexivity.
    + exact Hp.
    + reflexivity.
    + exact Hw.
    + right; right. split; [reflexivity|exact Hs].
    + right; right. split; [reflexivity|].
      unfold has_mark. cbn [append Js.startsWith].
      unfold is_hex in Hh.
      destruct c as [[] [] [] [] [] [] [] []]; try reflexivity;
        vm_compute in Hh; discriminate Hh.
    + reflexivity.
    + exact Hh.
  - exact decode_range.
Qed.

Lemma decode_reads_hex_field_witness :
  Driver.decode "IDD0880064" = 4096 * 0 + 256 * 0 + 16 * 6 + 4
  /\ Driver.decode "IDD0880x1F" = 1 * hex_number "1F"
  /\ Driver.decode "IDD088 -7Z" = -1 * hex_number "7"
  /\ Driver.decode "IDD08812" = 1 * hex_number "12"
  /\ Driver.decode "IDD088+x12" = 1 * hex_number EmptyString
  /\ Driver.decode "IDD088" = 0
  /\ Driver.decode "IDD088ZZZZ" = 0.
Proof.
  destruct decode_reads_hex_field as (H4 & _ & Hparts & _ & Hempty & Hnone & _).
  split; [|split; [|split; [|split; [|split; [|split]]]]].
  - apply (H4 "IDD0880064"%string "0" "0" "6" "4")%char; reflexivity.
  - apply (Hparts "IDD0880x1F"%string EmptyString EmptyString "0x"%string
             "1F"%string EmptyString); try reflexivity.
    + right; right. split; reflexivity.
    + left. reflexivity.
  - apply (Hparts "IDD088 -7Z"%string " "%string "-"%string EmptyString
             "7"%string "Z"%string); try reflexivity.
    + left. reflexivity.
    + right; right. split; reflexivity.
  - apply (Hparts "IDD08812"%string EmptyString EmptyString EmptyString
             "12"%string EmptyString); try reflexivity.
    + right; right. split; reflexivity.
    + right; right. split; reflexivity.
  - apply (Hparts "IDD088+x12"%string EmptyString "+"%string EmptyString
             EmptyString "x12"%string); try reflexivity.
    + right; left. reflexivity.
    + right; right. split; reflexivity.
  - apply Hempty. reflexivity.
  - apply (Hnone "IDD088ZZZZ"%string "Z"%char "ZZZ"%string); reflexivity.
Defined.

(** The claim as first stated fails: a field that is too short, or that
    holds a non-hex character, need not decode to 0. *)
Lemma decode_malformed_not_zero :
  is_hex4 (payload "IDD08812") = false /\ Driver.decode "IDD08812" = 18
  /\ is_hex4 (payload "IDD0881G00") = false /\ Driver.decode "IDD0881G00" = 1.
Proof. repeat split. Qed.

(** The response of the spec's example: hex 0064 at the offset is 100; a
    field with the 0x mark is read past the mark. *)
Example decode_0064 : Driver.decode "IDD0880064" = 100.
Proof. reflexivity. Qed.

Example decode_marked : Driver.decode "IDD0880x1F" = 31.
Proof. reflexivity. Qed.

End Decoding.

(* ================================================================== *)
(** * The object layout is an invariant *)
(* ================================================================== *)

Create Rewrite HintDb shape.

Section Shape.

Lemma map_metric_alter (v : float) (r : ref) (h : list Measurement) :
  List.map metric (alter (set_value v) r h) = List.map metric h.
Proof.
  revert r. induction h as [|m h IH]; intros [|r]; cbn; try reflexivity.
  f_equal. apply IH.
Qed.

Lemma map_unit_alter (v : float) (r : ref) (h : list Measurement) :
  List.map unit (alter (set_value v) r h) = List.map unit h.
Proof.
  revert r. induction h as [|m h IH]; intros [|r]; cbn; try reflexivity.
  f_equal. apply IH.
Qed.

Lemma shape_assign r v w : shape (assign r v w) = shape w.
Proof.
  unfold shape, assign. cbn. rewrite map_metric_alter, map_unit_alter. reflexivity.
Qed.

Lemma shape_console_log s w : shape (console_log s w) = shape w.
Proof. reflexivity. Qed.

Lemma shape_port_write s w : shape (port_write s w) = shape w.
Proof. reflexivity. Qed.

Lemma shape_mqtt_publish t v w : shape (mqtt_publish t v w) = shape w.
Proof. reflexivity. Qed.

Lemma shape_mqtt_subscribe t w : shape (mqtt_subscribe t w) = shape w.
Proof. reflexivity. Qed.

Lemma shape_clearInterval h w : shape (clearInterval h w) = shape w.
Proof. reflexivity. Qed.

Lemma shape_setInterval cb ms w : shape (snd (setInterval cb ms w)) = shape w.
Proof. reflexivity. Qed.

Lemma shape_stream_write fd c w : shape (stream_write fd c w) = shape w.
Proof. reflexivity. Qed.

Lemma shape_set_lastStrokeTimestamp t w :
  shape (set_lastStrokeTimestamp t w) = shape w.
Proof. reflexivity. Qed.

Lemma shape_set_activityTimeout t w : shape (set_activityTimeout t w) = shape w.
Proof. reflexivity. Qed.

Lemma shape_set_port p w : shape (set_port p w) = shape w.
Proof. reflexivity. Qed.

Lemma shape_set_recordingInterval t w :
  shape (set_recordingInterval t w) = shape w.
Proof. reflexivity. Qed.

Lemma shape_set_fitTimestampStart t w :
  shape (set_fitTimestampStart t w) = shape w.
Proof. reflexivity. Qed.

Lemma shape_set_fileWriter f w : shape (set_fileWriter f w) = shape w.
Proof. reflexivity. Qed.

Lemma shape_publish d r w : shape (publish d r w) = shape w.
Proof. unfold publish. destruct (heap w !! r); reflexivity. Qed.

Lemma shape_send s w : shape (Driver.send s w) = shape w.
Proof. unfold Driver.send. destruct (port (waterRower w)); reflexivity. Qed.

(** A loop whose body keeps an observation keeps it. *)
Lemma fold_left_keeps {A B} (obs : World -> B) (f : World -> A -> World)
    (l : list A) (w : World) :
  (forall w a, obs (f w a) = obs w) -> obs (fold_left f l w) = obs w.
Proof.
  intros Hf. revert w. induction l as [|a l IH]; intros w; cbn; [reflexivity|].
  rewrite IH. apply Hf.
Qed.

Lemma shape_fold_left {A} (f : World -> A -> World) (l : list A) (w : World) :
  (forall w a, shape (f w a) = shape w) -> shape (fold_left f l w) = shape w.
Proof. apply fold_left_keeps. Qed.

Lemma shape_update x v w w' :
  Driver.update x v w = Some w' -> shape w' = shape w.
Proof.
  unfold Driver.update. destruct (find_metric _ _ _); [|discriminate].
  intros [= <-]. rewrite shape_publish. apply shape_assign.
Qed.

Lemma shape_parseAndPublishData data m now w :
  shape (Driver.parseAndPublishData data m now w) = shape w.
Proof.
  unfold Driver.parseAndPublishData.
  repeat match goal with
         | |- context [match Driver.update ?x ?v ?w with _ => _ end] =>
             let E := fresh "E" in
             destruct (Driver.update x v w) eqn:E;
             [apply shape_update in E|]
         | |- context [if ?b then _ else _] => destruct b
         | |- context [match ?m with distance => _ | _ => _ end] => destruct m
         | |- context [match Driver.truthy ?t with _ => _ end] =>
             destruct (Driver.truthy t)
         end;
    rewrite ?shape_set_lastStrokeTimestamp; congruence.
Qed.

Lemma shape_strokeStart now w : shape (Driver.strokeStart now w) = shape w.
Proof.
  unfold Driver.strokeStart.
  destruct (activityTimeout _).
  - rewrite shape_send. apply shape_parseAndPublishData.
  - unfold setInterval. rewrite shape_set_activityTimeout.
    etransitivity; [|apply shape_parseAndPublishData].
    etransitivity; [|apply shape_send]. reflexivity.
Qed.

#[local] Hint Rewrite shape_assign shape_publish shape_send shape_console_log
  shape_set_lastStrokeTimestamp shape_strokeStart shape_parseAndPublishData
  : shape.

Lemma shape_action r line now w : shape (action r line now w) = shape w.
Proof. destruct r; cbn [action]; autorewrite with shape; reflexivity. Qed.

Lemma shape_onData line now w : shape (Driver.onData line now w) = shape w.
Proof.
  rewrite onData_dispatch. destruct (fired line); [reflexivity|].
  apply shape_action.
Qed.

Lemma shape_zero_all w : shape (Driver.zero_all w) = shape w.
Proof.
  unfold Driver.zero_all. apply shape_fold_left. intros; apply shape_assign.
Qed.

#[local] Hint Rewrite shape_zero_all : shape.

Lemma shape_driver_start found w : shape (Driver.start found w) = shape w.
Proof.
  unfold Driver.start. destruct (_ && _); autorewrite with shape; reflexivity.
Qed.

Lemma shape_reset w : shape (Driver.reset w) = shape w.
Proof.
  unfold Driver.reset. rewrite shape_set_lastStrokeTimestamp.
  rewrite shape_fold_left by (intros; rewrite shape_publish; apply shape_assign).
  rewrite shape_send.
  destruct (activityTimeout _); reflexivity.
Qed.

Lemma shape_device_reset d w : shape (device_reset d w) = shape w.
Proof. destruct d; [reflexivity|apply shape_reset]. Qed.

Lemma shape_onHeartRate bpm w : shape (onHeartRate bpm w) = shape w.
Proof.
  unfold onHeartRate. destruct (find_metric _ _ _);
    autorewrite with shape; reflexivity.
Qed.

Lemma shape_onMessage t p w : shape (Recorder.onMessage t p w) = shape w.
Proof.
  unfold Recorder.onMessage. destruct (find _ _ _); [|reflexivity].
  apply shape_assign.
Qed.

End Shape.

Section ShapeOutcome.

Variable shortest : float -> string.

Lemma shape_fileWriter_write c w :
  shape (world_of (fileWriter_write c w)) = shape w.
Proof. unfold fileWriter_write. destruct (fileWriter _); reflexivity. Qed.

Lemma shape_andThen (o : Outcome) (k : World -> Outcome) :
  (forall w, shape (world_of (k w)) = shape w) ->
  shape (world_of (o >>> k)) = shape (world_of o).
Proof. intros Hk. destruct o; cbn; [apply Hk|reflexivity]. Qed.

Lemma shape_openFile now1 now2 w :
  shape (world_of (Recorder.openFile now1 now2 w)) = shape w.
Proof.
  unfold Recorder.openFile, createWriteStream.
  repeat (rewrite shape_andThen by (intros; apply shape_fileWriter_write)).
  rewrite shape_fileWriter_write. reflexivity.
Qed.

Lemma shape_startTimer w : shape (Recorder.startTimer w) = shape w.
Proof. reflexivity. Qed.

Lemma shape_subscribe_device d (w0 w : World) :
  shape (fold_left
           (fun w r =>
              match heap w !! r with
              | Some m => mqtt_subscribe (topic d (metric m)) w
              | None => w
              end) (device_measurements d w0) w) = shape w.
Proof.
  apply shape_fold_left. intros w1 r. destruct (heap w1 !! r); reflexivity.
Qed.

Lemma shape_subscribeAll w : shape (Recorder.subscribeAll w) = shape w.
Proof.
  unfold Recorder.subscribeAll. apply shape_fold_left.
  intros w1 d. apply shape_subscribe_device.
Qed.

Lemma shape_modular_start now1 now2 w :
  shape (world_of (ActivityRecorder.start now1 now2 w)) = shape w.
Proof.
  unfold ActivityRecorder.start. destruct (recordingInterval _); [reflexivity|].
  rewrite shape_andThen by (intros; apply shape_startTimer).
  rewrite shape_openFile, shape_subscribeAll. reflexivity.
Qed.

Lemma shape_single_start now1 now2 w :
  shape (world_of (SingleFile.start now1 now2 w)) = shape w.
Proof.
  unfold SingleFile.start. destruct (recordingInterval _); [reflexivity|].
  rewrite shape_andThen by (intros; apply shape_startTimer).
  rewrite shape_openFile.
  rewrite shape_fold_left; [reflexivity|].
  intros w1 d. rewrite shape_subscribe_device. apply shape_device_reset.
Qed.

Lemma shape_writeMeasurement id w :
  shape (world_of (SingleFile.writeMeasurement shortest id w)) = shape w.
Proof.
  unfold SingleFile.writeMeasurement.
  destruct (find_metric _ _ _) as [r|]; [|reflexivity].
  destruct (heap w !! r); [|reflexivity].
  destruct (Js.isNaN _); [reflexivity|apply shape_fileWriter_write].
Qed.

Lemma shape_fold_andThen {A} (k : A -> World -> Outcome) (l : list A) (o : Outcome) :
  (forall a w, shape (world_of (k a w)) = shape w) ->
  shape (world_of (fold_left (fun o a => o >>> k a) l o)) = shape (world_of o).
Proof.
  intros Hk. revert o. induction l as [|a l IH]; intros o; cbn; [reflexivity|].
  rewrite IH. apply shape_andThen. intros; apply Hk.
Qed.

Lemma shape_record now w :
  shape (world_of (SingleFile.record shortest now w)) = shape w.
Proof.
  unfold SingleFile.record.
  match goal with |- context [if ?b then _ else _] => destruct b end;
    [reflexivity|].
  rewrite shape_andThen by (intros; apply shape_fileWriter_write).
  rewrite shape_fold_andThen by (intros; apply shape_writeMeasurement).
  apply shape_fileWriter_write.
Qed.

Lemma shape_stop now w :
  shape (world_of (SingleFile.stop shortest now w)) = shape w.
Proof.
  unfold SingleFile.stop.
  repeat (rewrite shape_andThen;
          [|intros; repeat case_match; try apply shape_fileWriter_write; reflexivity]).
  rewrite shape_fileWriter_write.
  destruct (recordingInterval _); reflexivity.
Qed.

Lemma shape_step build e w :
  shape (world_of (step shortest build e w)) = shape w.
Proof.
  destruct e, build; cbn [step]; repeat case_match; cbn [world_of];
    unfold Driver.onDistanceTimer;
    auto using shape_driver_start, shape_onData, shape_send, shape_onHeartRate,
      shape_onMessage, shape_modular_start, shape_single_start, shape_record,
      shape_stop.
Qed.

Lemma shape_run build es w :
  shape (world_of (run shortest build es w)) = shape w.
Proof.
  unfold run. rewrite shape_fold_andThen; [reflexivity|].
  intros e w1. apply shape_step.
Qed.

End ShapeOutcome.

(** The layout is a property of the shape. *)
Lemma layout_shape (w w' : World) : shape w' = shape w -> layout w -> layout w'.
Proof.
  unfold shape, layout. intros [= -> -> -> -> -> ->]. tauto.
Qed.

Lemma layout_boot (now : Z) : layout (boot now).
Proof. repeat split. Qed.

(** Under the layout the heap holds seven objects with known metric and
    unit; only their values are free. *)
Lemma layout_heap (w : World) :
  layout w ->
  exists v0 v1 v2 v3 v4 v5 v6,
    heap w =
      [ mkMeasurement v0 u_bpm heart_rate;
        mkMeasurement v1 u_m distance;
        mkMeasurement v2 u_watts power;
        mkMeasurement v3 u_cycles total_cycles;
        mkMeasurement v4 u_m_per_s speed;
        mkMeasurement v5 u_spm cadence;
        mkMeasurement v6 u_s_per_500m split ].
Proof.
  intros (Hm & Hu & _).
  destruct (heap w) as [|[v0 ? ?] [|[v1 ? ?] [|[v2 ? ?] [|[v3 ? ?] [|[v4 ? ?]
    [|[v5 ? ?] [|[v6 ? ?] [|? ?]]]]]]]]; try discriminate Hm.
  cbn in Hm, Hu. injection Hm as -> -> -> -> -> -> ->.
  injection Hu as -> -> -> -> -> -> ->.
  eauto 10.
Qed.

Ltac open_layout H :=
  let Hh := fresh "Hheap" in
  let v0 := fresh "v0" in let v1 := fresh "v1" in let v2 := fresh "v2" in
  let v3 := fresh "v3" in let v4 := fresh "v4" in let v5 := fresh "v5" in
  let v6 := fresh "v6" in
  destruct (layout_heap _ H) as (v0 & v1 & v2 & v3 & v4 & v5 & v6 & Hh);
  destruct H as (_ & _ & ?Hhr & ?Hwr & ?Hrec & ?Hdev).

Lemma find_wr (w : World) (x : Metric) :
  layout w -> x <> heart_rate ->
  find_metric (heap w) x (wr_measurements (waterRower w)) = Some (slot x).
Proof.
  intros H Hx. open_layout H. rewrite Hwr, Hheap.
  destruct x; try congruence; reflexivity.
Qed.

Lemma find_hr (w : World) :
  layout w -> find_metric (heap w) heart_rate (hr_measurements w) = Some 0%nat.
Proof. intros H. open_layout H. rewrite Hhr, Hheap. reflexivity. Qed.

Lemma find_rec (w : World) (x : Metric) :
  layout w ->
  find_metric (heap w) x (rec_measurements (activityRecorder w)) = Some (slot x).
Proof.
  intros H. open_layout H. rewrite Hrec, Hheap. destruct x; reflexivity.
Qed.

Lemma slot_lookup (w : World) (x : Metric) :
  layout w -> exists v, heap w !! slot x = Some (mkMeasurement v (unit_of x) x).
Proof.
  intros H. open_layout H. rewrite Hheap. destruct x; cbn; eauto.
Qed.

Lemma cached_reading (w : World) (x : Metric) :
  layout w -> cached x w = reading x w.
Proof. intros H. unfold cached. rewrite find_rec by assumption. reflexivity. Qed.

Lemma held_reading (w : World) (x : Metric) :
  layout w -> held x w = reading x w.
Proof.
  intros H. unfold held.
  destruct x; cbn [owner device_measurements];
    rewrite ?find_hr, ?find_wr by (assumption || congruence); reflexivity.
Qed.

(* ================================================================== *)
(** * Properties of the driver *)
(* ================================================================== *)

Section DriverProps.

Lemma fired_of (r : Rule) (line : string) :
  Js.startsWith (prefix_of r) line = true -> fired line = [r].
Proof.
  intros H. unfold fired, rules. cbn [List.filter prefix_of].
  destruct r; cbn [prefix_of] in H; split_rules line; congruence.
Qed.

Lemma onData_rule (r : Rule) (line : string) (now : Z) (w : World) :
  Js.startsWith (prefix_of r) line = true ->
  Driver.onData line now w = action r line now w.
Proof. intros H. rewrite onData_dispatch, (fired_of r line H). reflexivity. Qed.

Lemma onData_other (r : Rule) (line : string) (now : Z) (w : World) :
  Js.startsWith (prefix_of r) line = false ->
  Driver.onData line now w = w
  \/ exists r', r' <> r /\ Driver.onData line now w = action r' line now w.
Proof.
  intros H. rewrite onData_dispatch.
  destruct (fired line) as [|r' l] eqn:E; [left; reflexivity|].
  right. exists r'. split; [|reflexivity].
  intros ->.
  assert (In r (fired line)) as Hin by (rewrite E; left; reflexivity).
  unfold fired in Hin. apply filter_In in Hin as [_ Hin]. congruence.
Qed.

(** The object of [x] after [r.value = v]. *)
Lemma lookup_assign (w : World) (x : Metric) (v : float) :
  layout w ->
  heap (assign (slot x) v w) !! slot x = Some (mkMeasurement v (unit_of x) x).
Proof.
  intros H. destruct (slot_lookup w x H) as [v0 Hv].
  unfold assign, set_heap. cbn [heap]. rewrite list_lookup_alter_eq, Hv. reflexivity.
Qed.

Lemma slot_inj (x y : Metric) : slot x = slot y -> x = y.
Proof. destruct x, y; cbn; congruence. Qed.

Lemma reading_assign (w : World) (x y : Metric) (v : float) :
  layout w ->
  reading y (assign (slot x) v w) = if decide (x = y) then Some v else reading y w.
Proof.
  intros H. unfold reading. destruct (decide (x = y)) as [->|Hne].
  - rewrite lookup_assign by assumption. reflexivity.
  - unfold assign, set_heap. cbn [heap].
    rewrite list_lookup_alter_ne; [reflexivity|].
    intros E. apply Hne, slot_inj, E.
Qed.

(** [update] finds the object, stores the value and publishes it. *)
Lemma update_layout (w : World) (x : Metric) (v : float) :
  layout w -> x <> heart_rate ->
  Driver.update x v w =
  Some (mqtt_publish (topic WaterRowerS4 x) v (assign (slot x) v w)).
Proof.
  intros H Hx. unfold Driver.update. rewrite find_wr by assumption.
  unfold publish. rewrite lookup_assign by assumption. reflexivity.
Qed.

Lemma reading_mqtt_publish (w : World) (y : Metric) t v :
  reading y (mqtt_publish t v w) = reading y w.
Proof. reflexivity. Qed.

Lemma layout_assign (w : World) (r : ref) (v : float) :
  layout w -> layout (assign r v w).
Proof. apply layout_shape, shape_assign. Qed.

Lemma layout_mqtt_publish (w : World) t v : layout w -> layout (mqtt_publish t v w).
Proof. apply layout_shape. reflexivity. Qed.

End DriverProps.

Section SpeedAndCadence.

Local Notation "x / y" := (PrimFloat.div x y) : float_scope.

(** The [speed] branch of [parseAndPublishData], step by step. *)
Lemma speed_branch (line : string) (now : Z) (w : World) :
  layout w ->
  Driver.parseAndPublishData line speed now w =
  let v := Driver.decode line in
  let s := (Js.ofZ v / Js.ofZ 100)%float in
  let w1 := mqtt_publish (topic WaterRowerS4 speed) s (assign (slot speed) s w) in
  if v =? 0 then w1
  else
    let p := (Js.ofZ 50000 / Js.ofZ v)%float in
    mqtt_publish (topic WaterRowerS4 split) p (assign (slot split) p w1).
Proof.
  intros H. unfold Driver.parseAndPublishData.
  rewrite update_layout by (assumption || discriminate).
  cbv zeta. destruct (Driver.decode line =? 0); [reflexivity|].
  rewrite update_layout; [reflexivity| |discriminate].
  apply layout_mqtt_publish, layout_assign, H.
Qed.

Lemma upto_spec (p : Z -> bool) (fuel : nat) (a v : Z) :
  upto fuel a p = true -> a <= v < a + Z.of_nat fuel -> p v = true.
Proof.
  revert a. induction fuel as [|k IH]; intros a Hall Hv; [lia|].
  cbn [upto] in Hall. apply andb_prop in Hall as [Ha Hrest].
  destruct (Z.eq_dec v a) as [->|Hne]; [exact Ha|].
  apply (IH (a + 1)); [exact Hrest|lia].
Qed.

(** For every value that four hex digits can carry, the speed and the
    split are the numbers nearest to v / 100 and to 50000 / v. *)
Lemma pace_quotients_rounded (v : Z) :
  0 <= v < 65536 -> pace_rounded v = true.
Proof.
  intros Hv. apply (upto_spec pace_rounded (Z.to_nat 65536) 0); [|lia].
  vm_compute. reflexivity.
Qed.

(** C3. On every IDD14A response with decoded value v (centimetres per
    second) the speed becomes v / 100 and is published; if v is not 0 the
    split 50000 / v is stored and published after it; if v is 0 only the
    speed is published and the split keeps its value.  The quotients are
    the numbers nearest to the exact ones for every value of four hex
    digits; for v = 250 the speed is 2.5 m/s and the split 200 s per
    500 m. *)
Theorem pace_response_speed_and_split (line : string) (now : Z) (w : World) :
  layout w ->
  Js.startsWith "IDD14A" line = true ->
  let v := Driver.decode line in
  let w' := Driver.onData line now w in
  held speed w' = Some (Js.ofZ v / Js.ofZ 100)%float
  /\ (v <> 0 ->
      held split w' = Some (Js.ofZ 50000 / Js.ofZ v)%float
      /\ mqtt w' = mqtt w ++
           [("waterrower/speed"%string, (Js.ofZ v / Js.ofZ 100)%float);
            ("waterrower/split"%string, (Js.ofZ 50000 / Js.ofZ v)%float)])
  /\ (v = 0 ->
      held split w' = held split w
      /\ mqtt w' = mqtt w ++
           [("waterrower/speed"%string, (Js.ofZ 0 / Js.ofZ 100)%float)])
  /\ (0 <= v < 65536 ->
      nearest (Js.ofZ v / Js.ofZ 100)%float v 100 = true
      /\ (v <> 0 -> nearest (Js.ofZ 50000 / Js.ofZ v)%float 50000 v = true))
  /\ (Js.ofZ 250 / Js.ofZ 100 = 2.5 /\ Js.ofZ 50000 / Js.ofZ 250 = 200)%float.
Proof.
  intros H Hline v w'.
  assert (layout w') as H'.
  { eapply layout_shape; [apply shape_onData|exact H]. }
  assert (w' = Driver.parseAndPublishData line speed now w) as Hw'.
  { apply (onData_rule R_IDD14A). exact Hline. }
  rewrite speed_branch in Hw' by assumption. cbv zeta in Hw'. fold v in Hw'.
  rewrite !held_reading by assumption.
  assert (layout (mqtt_publish (topic WaterRowerS4 speed)
            (Js.ofZ v / Js.ofZ 100)%float
            (assign (slot speed) (Js.ofZ v / Js.ofZ 100)%float w))) as H1.
  { apply layout_mqtt_publish, layout_assign, H. }
  split; [|split; [|split; [|split]]].
  - rewrite Hw'. destruct (v =? 0);
      repeat first [ rewrite reading_mqtt_publish
                   | rewrite reading_assign by assumption
                   | case_decide ];
      congruence.
  - intros Hv. apply Z.eqb_neq in Hv. rewrite Hv in Hw'. split.
    + rewrite Hw', reading_mqtt_publish, reading_assign by assumption.
      case_decide; congruence.
    + rewrite Hw'. cbn. rewrite <- app_assoc. reflexivity.
  - intros Hv. rewrite Hv in Hw'. cbn [Z.eqb] in Hw'. split.
    + rewrite Hw', reading_mqtt_publish, reading_assign by assumption.
      case_decide; congruence.
    + rewrite Hw'. reflexivity.
  - intros Hv. pose proof (pace_quotients_rounded v Hv) as Hr.
    unfold pace_rounded in Hr. apply andb_prop in Hr as [Hs Hp].
    split; [exact Hs|]. intros Hne. apply Z.eqb_neq in Hne.
    rewrite Hne in Hp. exact Hp.
  - split; reflexivity.
Qed.

Lemma pace_response_speed_and_split_witness :
  held speed (Driver.onData "IDD14A00FA" 7 (Driver.start true (boot 0)))
  = Some 2.5%float.
Proof.
  assert (layout (Driver.start true (boot 0))) as H by (repeat split).
  exact (proj1 (pace_response_speed_and_split "IDD14A00FA" 7 _ H eq_refl)).
Defined.


(** The [cadence] branch of [parseAndPublishData]. *)
Lemma cadence_branch (now : Z) (w : World) :
  layout w ->
  Driver.parseAndPublishData "" cadence now w =
  match Driver.truthy (lastStrokeTimestamp (waterRower w)) with
  | Some last =>
      let c :=
        Js.parseFloat_toFixed1 (Js.ofZ (60 * 1000) / Js.ofZ (now - last))%float in
      set_lastStrokeTimestamp (Some now)
        (mqtt_publish (topic WaterRowerS4 cadence) c (assign (slot cadence) c w))
  | None => set_lastStrokeTimestamp (Some now) w
  end.
Proof.
  intros H. unfold Driver.parseAndPublishData.
  destruct (Driver.truthy _); [|reflexivity].
  rewrite update_layout by (assumption || discriminate). reflexivity.
Qed.

(** What the rest of the [SS] rule leaves alone. *)
Lemma strokeStart_keeps (now : Z) (w : World) :
  let w1 := Driver.parseAndPublishData "" cadence now w in
  let w' := Driver.strokeStart now w in
  heap w' = heap w1 /\ mqtt w' = mqtt w1
  /\ lastStrokeTimestamp (waterRower w') = lastStrokeTimestamp (waterRower w1).
Proof.
  cbv zeta. unfold Driver.strokeStart, Driver.send, setInterval.
  repeat case_match; repeat split.
Qed.



End SpeedAndCadence.

Section StrokeCount.

(** The branches that store the decoded integer as it is. *)
Lemma plain_branch (x : Metric) (line : string) (now : Z) (w : World) :
  layout w -> In x [distance; power; total_cycles] ->
  Driver.parseAndPublishData line x now w =
  mqtt_publish (topic WaterRowerS4 x) (Js.ofZ (Driver.decode line))
    (assign (slot x) (Js.ofZ (Driver.decode line)) w).
Proof.
  intros H Hx. cbn in Hx.
  destruct Hx as [<-|[<-|[<-|[]]]]; unfold Driver.parseAndPublishData;
    rewrite update_layout by (assumption || discriminate); reflexivity.
Qed.

Lemma reading_send (y : Metric) (s : string) (w : World) :
  reading y (Driver.send s w) = reading y w.
Proof. unfold Driver.send. destruct (port _); reflexivity. Qed.

Lemma reading_assign_other (w : World) (x y : Metric) (v : float) :
  layout w -> x <> y -> reading y (assign (slot x) v w) = reading y w.
Proof.
  intros H Hne. rewrite reading_assign by assumption. case_decide; congruence.
Qed.

(** A rule changes only the metrics listed for it. *)
Lemma reading_action (r : Rule) (y : Metric) (line : string) (now : Z) (w : World) :
  layout w -> ~ In y (writes r) ->
  reading y (action r line now w) = reading y w.
Proof.
  intros H Hy. destruct r; cbn [action writes] in *.
  - apply reading_send.
  - reflexivity.
  - unfold reading. rewrite (proj1 (strokeStart_keeps now w)).
    rewrite cadence_branch by assumption.
    destruct (Driver.truthy _); [|reflexivity].
    apply (reading_assign_other w cadence y); [assumption|].
    intros <-. apply Hy. left. reflexivity.
  - rewrite reading_send, (plain_branch power) by (assumption || cbn; tauto).
    apply (reading_assign_other w power y); [assumption|].
    intros <-. apply Hy. left. reflexivity.
  - rewrite (plain_branch total_cycles) by (assumption || cbn; tauto).
    apply (reading_assign_other w total_cycles y); [assumption|].
    intros <-. apply Hy. left. reflexivity.
  - rewrite reading_send, (plain_branch distance) by (assumption || cbn; tauto).
    apply (reading_assign_other w distance y); [assumption|].
    intros <-. apply Hy. left. reflexivity.
  - rewrite speed_branch by assumption. cbv zeta.
    assert (speed <> y) by (intros <-; apply Hy; left; reflexivity).
    assert (split <> y) by (intros <-; apply Hy; right; left; reflexivity).
    destruct (_ =? 0);
      repeat first [ rewrite reading_mqtt_publish
                   | rewrite reading_assign_other;
                     [|auto using layout_mqtt_publish, layout_assign|assumption] ];
      reflexivity.
Qed.

(** An IDD140 line overwrites the stroke count with its decoded field. *)
Lemma stroke_count_set (line : string) (now : Z) (w : World) :
  layout w -> Js.startsWith "IDD140" line = true ->
  reading total_cycles (Driver.onData line now w)
  = Some (Js.ofZ (Driver.decode line)).
Proof.
  intros H Hline. rewrite (onData_rule R_IDD140) by exact Hline.
  cbn [action]. rewrite (plain_branch total_cycles) by (assumption || cbn; tauto).
  rewrite reading_mqtt_publish, reading_assign by assumption.
  case_decide; congruence.
Qed.

(** Every other line leaves the stroke count as it is. *)
Lemma stroke_count_kept (line : string) (now : Z) (w : World) :
  layout w -> Js.startsWith "IDD140" line = false ->
  reading total_cycles (Driver.onData line now w) = reading total_cycles w.
Proof.
  intros H Hline.
  destruct (onData_other R_IDD140 line now w Hline) as [->|(r & Hr & ->)];
    [reflexivity|].
  apply reading_action; [assumption|].
  destruct r; cbn [writes In]; first [congruence | intuition discriminate].
Qed.

Lemma counts_nondecreasing (c : Z) (lines : list (string * Z)) :
  console_monotone c lines -> nondecreasing c (counts c lines).
Proof.
  revert c. induction lines as [|[line now] rest IH]; intros c;
    cbn [console_monotone counts nondecreasing]; [tauto|].
  destruct (Js.startsWith "IDD140" line).
  - intros [Hle Hrest]. split; [exact Hle|apply IH, Hrest].
  - intros Hrest. split; [lia|apply IH, Hrest].
Qed.

(** C8, as amended. The driver stores whatever count the console reports:
    an IDD140 line sets total_cycles to its decoded field, every other line
    leaves it alone.  Along any sequence of received lines the cached
    counts are therefore exactly the reported ones, and they are
    non-decreasing whenever the console never reports a smaller count than
    the one before. *)
Theorem total_cycles_follows_console (lines : list (string * Z)) (c : Z) (w : World) :
  layout w ->
  held total_cycles w = Some (Js.ofZ c) ->
  List.map (held total_cycles) (feed lines w)
  = List.map (fun n => Some (Js.ofZ n)) (counts c lines)
  /\ (console_monotone c lines -> nondecreasing c (counts c lines)).
Proof.
  intros H Hc. split; [|apply counts_nondecreasing].
  revert c w H Hc. induction lines as [|[line now] rest IH]; intros c w H Hc;
    cbn [feed counts List.map]; [reflexivity|].
  assert (layout (Driver.onData line now w)) as H'.
  { eapply layout_shape; [apply shape_onData|exact H]. }
  assert (held total_cycles (Driver.onData line now w)
          = Some (Js.ofZ (if Js.startsWith "IDD140" line
                          then Driver.decode line else c))) as Hstep.
  { rewrite held_reading in Hc |- * by assumption.
    destruct (Js.startsWith "IDD140" line) eqn:E.
    - apply stroke_count_set; assumption.
    - rewrite stroke_count_kept by assumption. exact Hc. }
  rewrite Hstep. f_equal. apply IH; assumption.
Qed.

Lemma total_cycles_follows_console_witness :
  let w := Driver.start true (boot 0) in
  List.map (held total_cycles)
    (feed [("SS", 10); ("IDD1400001", 20); ("SS", 900); ("IDD1400002", 910)]%string w)
  = [Some 0; Some 1; Some 1; Some 2]%float.
Proof.
  intros w.
  assert (layout w) as H by (repeat split).
  exact (proj1 (total_cycles_follows_console
                  [("SS", 10); ("IDD1400001", 20); ("SS", 900); ("IDD1400002", 910)]%string
                  0 w H eq_refl)).
Defined.

(** The claim as first stated fails: the stroke count drops when the
    console reports a smaller value (here 5, then 3) after the session has
    started. *)
Lemma total_cycles_can_decrease :
  let w0 := world_of (SingleFile.start 0 0 (Driver.start true (boot 0))) in
  let w1 := Driver.onData "IDD1400005" 10 w0 in
  let w2 := Driver.onData "IDD1400003" 20 w1 in
  held total_cycles w1 = Some 5%float
  /\ held total_cycles w2 = Some 3%float
  /\ PrimFloat.leb 5 3 = false.
Proof. repeat split. Qed.

End StrokeCount.

(* ================================================================== *)
(** * Properties of the recorder *)
(* ================================================================== *)

Section RecorderProps.

Variable shortest : float -> string.

Lemma fileWriter_write_open (c : string) (w : World) (fd : nat) :
  fileWriter (activityRecorder w) = Some fd ->
  fileWriter_write c w = Ok (stream_write fd c w).
Proof. intros H. unfold fileWriter_write. rewrite H. reflexivity. Qed.

Lemma found_heap (ids : list Metric) (w w' : World) :
  heap w' = heap w -> found ids w' = found ids w.
Proof.
  intros Hh. induction ids as [|x ids IH]; cbn [found]; [reflexivity|].
  rewrite Hh, IH. reflexivity.
Qed.

Lemma fileWriter_write_none (c : string) (w : World) :
  fileWriter (activityRecorder w) = None -> fileWriter_write c w = TypeError w.
Proof. intros H. unfold fileWriter_write. rewrite H. reflexivity. Qed.

(** The [forEach] of [record]: one field per object whose value is a
    number, in the order of the list, and nothing else on the stream. *)
Lemma write_fields (ids : list Metric) (w : World) (fd : nat) :
  layout w ->
  fileWriter (activityRecorder w) = Some fd ->
  exists w',
    fold_left (fun o id => o >>> SingleFile.writeMeasurement shortest id) ids (Ok w)
    = Ok w'
    /\ files w' =
         write_all fd
           (List.map (SingleFile.field shortest)
              (List.filter is_number (found ids w))) (files w)
    /\ heap w' = heap w
    /\ fileWriter (activityRecorder w') = Some fd
    /\ layout w'.
Proof.
  revert w. induction ids as [|id ids IH]; intros w H Hfd.
  - exists w. split; [reflexivity|]. split; [reflexivity|].
    split; [reflexivity|]. split; assumption.
  - cbn [fold_left andThen].
    destruct (slot_lookup w id H) as [v Hv].
    assert (found (id :: ids) w
            = mkMeasurement v (unit_of id) id :: found ids w) as Hfound.
    { cbn [found]. rewrite Hv. reflexivity. }
    rewrite Hfound. cbn [List.filter].
    unfold SingleFile.writeMeasurement at 2.
    rewrite find_rec by assumption. rewrite Hv. unfold is_number at 1.
    cbn [value]. destruct (Js.isNaN v); cbn [negb].
    + destruct (IH (console_log
                      ("Measurement " ++ metric_name id ++ " has invalid value.")
                      w)) as (w' & Hrun & Hfiles & Hheap & Hfd' & H');
        [apply (layout_shape w); [reflexivity|assumption]|exact Hfd|].
      rewrite (found_heap ids w _) in Hfiles by reflexivity.
      exists w'. tauto.
    + rewrite (fileWriter_write_open _ w fd Hfd).
      destruct (IH (stream_write fd
                      (SingleFile.field shortest (mkMeasurement v (unit_of id) id))
                      w)) as (w' & Hrun & Hfiles & Hheap & Hfd' & H');
        [apply (layout_shape w); [reflexivity|assumption]|exact Hfd|].
      rewrite (found_heap ids w _) in Hfiles by reflexivity.
      exists w'. tauto.
Qed.

Lemma alter_last {A} (f : A -> A) (l : list A) (x : A) :
  alter f (List.length l) (l ++ [x]) = l ++ [f x].
Proof. induction l as [|a l IH]; cbn; [reflexivity|]. f_equal. exact IH. Qed.

(** [openFile] always returns: it creates one stream, writes the six
    header rows on it and touches no timer. *)
Lemma openFile_ok (now1 now2 : Z) (w : World) :
  exists w',
    Recorder.openFile now1 now2 w = Ok w'
    /\ files w' =
         files w ++
         [mkFile ("trainings/" ++ Js.intToString now1 ++ ".fit.csv")
            (preamble (now2 / 1000 - GARMIN_EPOCH)) false]
    /\ fileWriter (activityRecorder w') = Some (List.length (files w))
    /\ recordingInterval (activityRecorder w') = recordingInterval (activityRecorder w)
    /\ intervals w' = intervals w /\ timersMade w' = timersMade w
    /\ waterRower w' = waterRower w.
Proof.
  eexists. split; [reflexivity|].
  split; [|repeat split].
  cbn [files stream_write set_files set_fileWriter set_activityRecorder
         set_fitTimestampStart createWriteStream fst snd].
  repeat rewrite alter_last. reflexivity.
Qed.

Lemma session_subscribeAll (w : World) :
  session (Recorder.subscribeAll w) = session w.
Proof.
  unfold Recorder.subscribeAll. apply fold_left_keeps. intros w1 d.
  apply fold_left_keeps. intros w2 r. destruct (heap w2 !! r); reflexivity.
Qed.

Lemma waterRower_subscribe (d : Device) (l : list ref) (w : World) :
  waterRower
    (fold_left
       (fun w r =>
          match heap w !! r with
          | Some m => mqtt_subscribe (topic d (metric m)) w
          | None => w
          end) l w) = waterRower w.
Proof.
  apply (fold_left_keeps waterRower). intros w1 r.
  destruct (heap w1 !! r); reflexivity.
Qed.

(** A session of the single-file build starts with no stroke timestamp:
    [start] resets the driver, so the first stroke-start of every session
    finds none, as the first one after [boot] does. *)
Lemma session_start_forgets_last_stroke (now1 now2 : Z) (w : World) :
  layout w ->
  recordingInterval (activityRecorder w) = None ->
  lastStrokeTimestamp (waterRower (world_of (SingleFile.start now1 now2 w))) = None
  /\ lastStrokeTimestamp (waterRower (boot now1)) = None.
Proof.
  intros H Hnone. split; [|reflexivity].
  unfold SingleFile.start. rewrite Hnone.
  match goal with
  | |- context [Recorder.openFile now1 now2 ?w0] =>
      destruct (openFile_ok now1 now2 w0) as (w1 & Hopen & _ & _ & _ & _ & _ & Hwr);
      rewrite Hopen
  end.
  cbn [andThen world_of].
  change (waterRower (Recorder.startTimer w1)) with (waterRower w1).
  rewrite Hwr.
  destruct H as (_ & _ & _ & _ & _ & Hdev).
  cbn [console_log set_console activityRecorder]. rewrite Hdev.
  cbn [fold_left]. rewrite waterRower_subscribe.
  reflexivity.
Qed.

(** C6. Calling [start] while a session is open changes nothing; from a
    closed recorder the first [start] opens one output file and sets one
    tick timer, and a second [start] without a [stop] in between returns
    the same state: one session, one file, one timer.  (The single-file
    build also returns without opening anything; it prints one line.) *)
Theorem start_twice_opens_one_session (now1 now2 now3 now4 : Z) (w : World) :
  (forall h, recordingInterval (activityRecorder w) = Some h ->
     ActivityRecorder.start now1 now2 w = Ok w)
  /\ (recordingInterval (activityRecorder w) = None ->
     exists w1,
       ActivityRecorder.start now1 now2 w = Ok w1
       /\ ActivityRecorder.start now3 now4 w1 = Ok w1
       /\ List.length (files w1) = S (List.length (files w))
       /\ intervals w1 = intervals w ++ [mkInterval (timersMade w) 1000 RecordRow]
       /\ recordingInterval (activityRecorder w1) = Some (timersMade w))
  /\ (forall h, recordingInterval (activityRecorder w) = Some h ->
     SingleFile.start now1 now2 w
     = Ok (console_log "A recording session is already running." w)).
Proof.
  split; [|split].
  - intros h Hh. unfold ActivityRecorder.start. rewrite Hh. reflexivity.
  - intros Hnone. unfold ActivityRecorder.start at 1. rewrite Hnone.
    pose proof (session_subscribeAll (console_log "Starting new session" w)) as Hs.
    destruct (openFile_ok now1 now2
                (Recorder.subscribeAll (console_log "Starting new session" w)))
      as (w0 & Hopen & Hfiles & _ & _ & Hint & Hmade & _).
    unfold session in Hs. cbn [console_log set_console intervals timersMade files
                                 activityRecorder] in Hs.
    injection Hs as Hi Ht Hf _ _.
    rewrite Hopen. cbn [andThen].
    exists (Recorder.startTimer w0). split; [reflexivity|].
    unfold Recorder.startTimer, setInterval.
    cbn [set_recordingInterval set_activityRecorder set_intervals activityRecorder
           recordingInterval files intervals].
    split; [reflexivity|]. split; [|split].
    + rewrite Hfiles, Hf, length_app. cbn. lia.
    + rewrite Hint, Hi, Hmade, Ht. reflexivity.
    + rewrite Hmade, Ht. reflexivity.
  - intros h Hh. unfold SingleFile.start. rewrite Hh. reflexivity.
Qed.

Lemma start_twice_opens_one_session_witness :
  exists w1,
    ActivityRecorder.start 10 20 (boot 0) = Ok w1
    /\ ActivityRecorder.start 30 40 w1 = Ok w1
    /\ List.length (files w1) = 1%nat
    /\ intervals w1 = [mkInterval 0 1000 RecordRow]
    /\ recordingInterval (activityRecorder w1) = Some 0%nat.
Proof.
  exact (proj1 (proj2 (start_twice_opens_one_session 10 20 30 40 (boot 0))) eq_refl).
Defined.

(** [stop] of the single-file build on an open stream: the tick is
    cancelled, the six summary chunks are written, and the stream stays
    the recorder's [fileWriter]. *)
Lemma stop_open (now : Z) (w : World) (fd : nat) :
  layout w ->
  fileWriter (activityRecorder w) = Some fd ->
  exists w',
    SingleFile.stop shortest now w = Ok w'
    /\ files w' = write_all fd (summary shortest now w) (files w)
    /\ fileWriter (activityRecorder w') = Some fd
    /\ recordingInterval (activityRecorder w') = None
    /\ fitTimestampStart (activityRecorder w') = fitTimestampStart (activityRecorder w)
    /\ heap w' = heap w
    /\ layout w'.
Proof.
  intros H Hfd.
  destruct (slot_lookup w distance H) as [vd Hd].
  destruct (slot_lookup w total_cycles H) as [vc Hc].
  assert (forall w1, shape w1 = shape w -> heap w1 = heap w ->
            fileWriter (activityRecorder w1) = Some fd ->
            fitTimestampStart (activityRecorder w1) = fitTimestampStart (activityRecorder w) ->
            recordingInterval (activityRecorder w1) = None ->
            exists w',
              (let w2 := console_log "Finalizing workout file" w1 in
               let start := fitTimestampStart (activityRecorder w2) in
               let distance_ :=
                 find_metric (heap w2) distance (rec_measurements (activityRecorder w2)) in
               let strokes :=
                 find_metric (heap w2) total_cycles (rec_measurements (activityRecorder w2)) in
               fileWriter_write (SingleFile.session_start start) w2
               >>> fileWriter_write
                     ("total_elapsed_time,"
                      ++ quoted (now / 1000 - GARMIN_EPOCH - start) ++ ",s,")
               >>> (fun w =>
                      match SingleFile.value_of distance_ w with
                      | Some v =>
                          fileWriter_write
                            ("total_distance," ++ Js.dq ++ Js.toString shortest v
                             ++ Js.dq ++ ",m,") w
                      | None => TypeError w
                      end)
               >>> (fun w =>
                      match SingleFile.value_of strokes w with
                      | Some v =>
                          fileWriter_write
                            ("total_cycles," ++ Js.dq ++ Js.toString shortest v
                             ++ Js.dq ++ ",cycles,") w
                      | None => TypeError w
                      end)
               >>> fileWriter_write
                     ("sport," ++ quoted 15 ++ ",,sub_sport," ++ quoted 14 ++ ","
                      ++ Js.LF)
               >>> fileWriter_write (SingleFile.activity_data start)) = Ok w'
              /\ files w' = write_all fd (summary shortest now w) (files w1)
              /\ fileWriter (activityRecorder w') = Some fd
              /\ recordingInterval (activityRecorder w') = None
              /\ fitTimestampStart (activityRecorder w')
                 = fitTimestampStart (activityRecorder w)
              /\ heap w' = heap w
              /\ layout w') as Hbody.
  { intros w1 Hshape Hheap1 Hfd1 Hstart1 Hrec1. cbv zeta.
    assert (layout (console_log "Finalizing workout file" w1)) as H2.
    { apply (layout_shape w); [exact Hshape|exact H]. }
    rewrite !find_rec by exact H2.
    rewrite fileWriter_write_open with (fd := fd) by exact Hfd1. cbn [andThen].
    rewrite fileWriter_write_open with (fd := fd) by exact Hfd1. cbn [andThen].
    unfold SingleFile.value_of at 1.
    cbn [heap stream_write set_files console_log set_console].
    rewrite Hheap1, Hd. cbn [fmap option_fmap option_map value].
    rewrite fileWriter_write_open with (fd := fd) by exact Hfd1. cbn [andThen].
    unfold SingleFile.value_of at 1.
    cbn [heap stream_write set_files console_log set_console].
    rewrite Hheap1, Hc. cbn [fmap option_fmap option_map value].
    rewrite fileWriter_write_open with (fd := fd) by exact Hfd1. cbn [andThen].
    rewrite fileWriter_write_open with (fd := fd) by exact Hfd1. cbn [andThen].
    rewrite fileWriter_write_open with (fd := fd) by exact Hfd1.
    eexists. split; [reflexivity|].
    split; [|split; [exact Hfd1|split; [exact Hrec1|split; [exact Hstart1|
      split; [exact Hheap1|apply (layout_shape w); [exact Hshape|exact H]]]]]].
    unfold summary, reading. rewrite Hd, Hc.
    cbn [fmap option_fmap option_map value].
    cbn [activityRecorder console_log set_console fitTimestampStart] in *.
    rewrite Hstart1. reflexivity. }
  unfold SingleFile.stop.
  destruct (recordingInterval (activityRecorder w)) as [h|] eqn:Hrec.
  - destruct (Hbody (set_recordingInterval None (clearInterval h w)))
      as (w' & Hrun & Hrest); try reflexivity; [exact Hfd|].
    exists w'. split; [exact Hrun|exact Hrest].
  - destruct (Hbody w) as (w' & Hrun & Hrest); try reflexivity; try assumption.
    exists w'. split; [exact Hrun|exact Hrest].
Qed.

(** Without a stream the first write of [stop] throws. *)
Lemma stop_without_session (now : Z) (w : World) :
  fileWriter (activityRecorder w) = None ->
  recordingInterval (activityRecorder w) = None ->
  SingleFile.stop shortest now w
  = TypeError (console_log "Finalizing workout file" w).
Proof.
  intros Hfd Hrec. unfold SingleFile.stop. rewrite Hrec.
  rewrite fileWriter_write_none by exact Hfd. reflexivity.
Qed.

Lemma closed_write_all (fd : nat) (cs : list string) (fs : list File) :
  List.map closed (write_all fd cs fs) = List.map closed fs.
Proof.
  unfold write_all. revert fs. induction cs as [|c cs IH]; intros fs; cbn;
    [reflexivity|].
  rewrite IH. clear IH. revert fd.
  induction fs as [|f fs IH]; intros [|fd]; cbn; try reflexivity.
  f_equal. apply IH.
Qed.

Lemma write_all_app (fd : nat) (cs1 cs2 : list string) (fs : list File) :
  write_all fd (cs1 ++ cs2) fs = write_all fd cs2 (write_all fd cs1 fs).
Proof. unfold write_all. apply fold_left_app. Qed.

(** C5: what [stop] does instead.  In [activityrecorder.ts] the body of
    [stop] is a comment, so the call returns the state as it was: the tick
    keeps running, no summary is written, nothing is closed.  In the
    single-file build [stop] cancels the tick and writes the session and
    activity rows, but it never closes the stream and it is not guarded:
    a second [stop] writes the summary rows a second time, and a [stop]
    with no session throws on its first write. *)
Theorem stop_is_not_idempotent :
  (forall exit w, ActivityRecorder.stop exit w = Ok w)
  /\ (forall now1 now2 w fd,
      layout w ->
      fileWriter (activityRecorder w) = Some fd ->
      exists w1 w2,
        SingleFile.stop shortest now1 w = Ok w1
        /\ SingleFile.stop shortest now2 w1 = Ok w2
        /\ recordingInterval (activityRecorder w1) = None
        /\ files w2 =
             write_all fd (summary shortest now1 w ++ summary shortest now2 w1)
               (files w)
        /\ List.map closed (files w2) = List.map closed (files w)
        /\ fileWriter (activityRecorder w2) = Some fd)
  /\ (forall now w,
      fileWriter (activityRecorder w) = None ->
      recordingInterval (activityRecorder w) = None ->
      SingleFile.stop shortest now w
      = TypeError (console_log "Finalizing workout file" w)).
Proof.
  split; [reflexivity|]. split; [|intros; apply stop_without_session; assumption].
  intros now1 now2 w fd H Hfd.
  destruct (stop_open now1 w fd H Hfd)
    as (w1 & Hrun1 & Hfiles1 & Hfd1 & Hrec1 & _ & _ & H1).
  destruct (stop_open now2 w1 fd H1 Hfd1)
    as (w2 & Hrun2 & Hfiles2 & Hfd2 & _ & _ & _ & _).
  exists w1, w2. repeat split; try assumption.
  - rewrite Hfiles2, Hfiles1, write_all_app. reflexivity.
  - rewrite Hfiles2, Hfiles1, !closed_write_all. reflexivity.
Qed.

End RecorderProps.

Lemma stop_is_not_idempotent_witness :
  let w := world_of (SingleFile.start 10 20 (Driver.start true (boot 0))) in
  exists w1 w2,
    SingleFile.stop (fun _ => EmptyString) 5000 w = Ok w1
    /\ SingleFile.stop (fun _ => EmptyString) 9000 w1 = Ok w2
    /\ recordingInterval (activityRecorder w1) = None
    /\ files w2 =
         write_all 0
           (summary (fun _ => EmptyString) 5000 w
            ++ summary (fun _ => EmptyString) 9000 w1) (files w)
    /\ List.map closed (files w2) = List.map closed (files w)
    /\ fileWriter (activityRecorder w2) = Some 0%nat.
Proof.
  intros w.
  assert (layout w) as H by (repeat split).
  exact (proj1 (proj2 (stop_is_not_idempotent (fun _ => EmptyString)))
           5000 9000 w 0%nat H eq_refl).
Defined.

(* ------------------------------------------------------------------ *)
(** ** The data row of a tick *)

(** The fields that [record] writes, from the values the recorder reads. *)
Lemma row_fields (w : World) (vd vp vc vs vk vh : float) :
  layout w ->
  cached distance w = Some vd -> cached power w = Some vp ->
  cached total_cycles w = Some vc -> cached speed w = Some vs ->
  cached cadence w = Some vk -> cached heart_rate w = Some vh ->
  List.map (SingleFile.field Js.shortest)
    (List.filter is_number (found SingleFile.measurementIds w))
  = unless_NaN vd ("distance," ++ Js.dq ++ printed vd ++ Js.dq ++ ",m,")%string
    ++ unless_NaN vp ("power," ++ Js.dq ++ printed vp ++ Js.dq ++ ",watts,")%string
    ++ unless_NaN vc
         ("total_cycles," ++ Js.dq ++ printed vc ++ Js.dq ++ ",cycles,")%string
    ++ unless_NaN vs ("speed," ++ Js.dq ++ printed vs ++ Js.dq ++ ",m/s,")%string
    ++ unless_NaN vk ("cadence," ++ Js.dq ++ printed vk ++ Js.dq ++ ",spm,")%string
    ++ unless_NaN vh
         ("heart_rate," ++ Js.dq ++ printed vh ++ Js.dq ++ ",bpm,")%string.
Proof.
  intros H Hd Hp Hc Hs Hk Hh.
  rewrite !cached_reading in * by assumption.
  open_layout H. unfold reading in *. rewrite Hheap in *.
  cbn in Hd, Hp, Hc, Hs, Hk, Hh.
  injection Hd as ->. injection Hp as ->. injection Hc as ->.
  injection Hs as ->. injection Hk as ->. injection Hh as ->.
  unfold SingleFile.measurementIds. cbn [found]. rewrite Hheap.
  cbn [slot lookup list_lookup].
  unfold is_number, unless_NaN. cbn [List.filter value].
  destruct (Js.isNaN vd), (Js.isNaN vp), (Js.isNaN vc), (Js.isNaN vs),
    (Js.isNaN vk), (Js.isNaN vh); reflexivity.
Qed.

Lemma string_app_assoc (a b c : string) :
  ((a ++ b) ++ c = a ++ b ++ c)%string.
Proof. induction a as [|x a IH]; cbn; [reflexivity|]. rewrite IH. reflexivity. Qed.

(** The chunk that opens a row. *)
Lemma record_start_text (t : Z) :
  SingleFile.record_start (t - GARMIN_EPOCH)
  = ("Data,1,record,timestamp," ++ Js.dq ++ Js.intToString (t - 631065600)
     ++ Js.dq ++ ",s,")%string.
Proof.
  unfold SingleFile.record_start, quoted, GARMIN_EPOCH.
  rewrite !string_app_assoc. reflexivity.
Qed.

(** A tick on an idle machine writes nothing. *)
Lemma record_idle (now : Z) (w : World) (v : float) :
  layout w ->
  cached total_cycles w = Some v -> Js.isZero v = true ->
  SingleFile.record Js.shortest now w
  = Ok (console_log "No activity detected yet, skipping data point." w).
Proof.
  intros H Hv Hz. rewrite cached_reading in Hv by assumption.
  unfold reading in Hv.
  unfold SingleFile.record. rewrite find_rec by assumption.
  destruct (heap w !! slot total_cycles) as [m|]; [|discriminate Hv].
  cbn in Hv. injection Hv as ->. rewrite Hz. reflexivity.
Qed.

(** A tick after the first stroke writes one row. *)
Lemma record_row (now : Z) (w : World) (fd : nat) (vd vp vc vs vk vh : float) :
  layout w ->
  fileWriter (activityRecorder w) = Some fd ->
  cached distance w = Some vd -> cached power w = Some vp ->
  cached total_cycles w = Some vc -> cached speed w = Some vs ->
  cached cadence w = Some vk -> cached heart_rate w = Some vh ->
  Js.isZero vc = false ->
  exists w',
    SingleFile.record Js.shortest now w = Ok w'
    /\ heap w' = heap w
    /\ files w' =
         write_all fd
           ([("Data,1,record,timestamp," ++ Js.dq
              ++ Js.intToString (now / 1000 - 631065600) ++ Js.dq ++ ",s,")%string]
            ++ unless_NaN vd
                 ("distance," ++ Js.dq ++ printed vd ++ Js.dq ++ ",m,")%string
            ++ unless_NaN vp
                 ("power," ++ Js.dq ++ printed vp ++ Js.dq ++ ",watts,")%string
            ++ unless_NaN vc
                 ("total_cycles," ++ Js.dq ++ printed vc ++ Js.dq ++ ",cycles,")%string
            ++ unless_NaN vs
                 ("speed," ++ Js.dq ++ printed vs ++ Js.dq ++ ",m/s,")%string
            ++ unless_NaN vk
                 ("cadence," ++ Js.dq ++ printed vk ++ Js.dq ++ ",spm,")%string
            ++ unless_NaN vh
                 ("heart_rate," ++ Js.dq ++ printed vh ++ Js.dq ++ ",bpm,")%string
            ++ [Js.LF])
           (files w).
Proof.
  intros H Hfd Hd Hp Hc Hs Hk Hh Hz.
  pose proof (row_fields w vd vp vc vs vk vh H Hd Hp Hc Hs Hk Hh) as Hrow.
  rewrite cached_reading in Hc by assumption. unfold reading in Hc.
  unfold SingleFile.record. rewrite find_rec by assumption.
  destruct (heap w !! slot total_cycles) as [m|]; [|discriminate Hc].
  cbn in Hc. injection Hc as Hc. rewrite Hc, Hz.
  rewrite (fileWriter_write_open _ w fd Hfd).
  destruct (write_fields Js.shortest SingleFile.measurementIds
              (stream_write fd
                 (SingleFile.record_start (now / 1000 - GARMIN_EPOCH)) w) fd)
    as (w1 & Hrun & Hfiles & Hheap & Hfd1 & H1);
    [apply (layout_shape w); [reflexivity|assumption]|exact Hfd|].
  rewrite Hrun. cbn [andThen].
  rewrite (fileWriter_write_open _ w1 fd Hfd1).
  eexists. split; [reflexivity|]. split; [exact Hheap|].
  unfold stream_write at 1. cbn [files set_files]. rewrite Hfiles.
  rewrite (found_heap _ w _) by reflexivity. rewrite Hrow.
  rewrite record_start_text.
  unfold write_all. rewrite !fold_left_app. reflexivity.
Qed.

(** Every count of at most four hex digits is held by a number, and only
    the count 0 by the number 0. *)
Lemma count_is_number (c : Z) :
  - 65535 <= c <= 65535 ->
  Js.isNaN (Js.ofZ c) = false /\ Js.isZero (Js.ofZ c) = (c =? 0).
Proof.
  intros Hc.
  assert (count_held c = true) as H.
  { apply (upto_spec count_held (Z.to_nat 131071) (- 65535)); [|lia].
    vm_compute. reflexivity. }
  unfold count_held in H. apply andb_prop in H as [Hn Hz].
  apply negb_true_iff in Hn. apply Bool.eqb_prop in Hz. split; assumption.
Qed.

(** The counts below 10000 print as their decimal digits. *)
Lemma count_digits (c : Z) :
  0 <= c < 10000 -> printed (Js.ofZ c) = Js.intToString c.
Proof.
  intros Hc. apply String.eqb_eq.
  apply (upto_spec count_printed (Z.to_nat 10000) 0); [|lia].
  vm_compute. reflexivity.
Qed.

(** The state in which the first session starts: every value is the
    default 0 and the stream is the first one. *)
Lemma first_session (now0 now1 now2 : Z) :
  let w := world_of (SingleFile.start now1 now2 (Driver.start true (boot now0))) in
  layout w
  /\ fileWriter (activityRecorder w) = Some 0%nat
  /\ forall m, reading m w = Some PrimFloat.zero.
Proof.
  intros w. split; [|split].
  - apply (layout_shape (boot now0)); [|apply layout_boot].
    unfold w. rewrite shape_single_start, shape_driver_start. reflexivity.
  - reflexivity.
  - intros m. destruct m; reflexivity.
Qed.

(** How the numbers of a row print. *)
Lemma printed_numbers :
  List.map printed
       [ PrimFloat.zero; Js.ofZ 5; Js.ofZ 65535; Js.ofZ (- 12);
         (Js.ofZ 250 / Js.ofZ 100)%float;
         (Js.ofZ 7 / Js.ofZ 100)%float;
         (Js.ofZ 65535 / Js.ofZ 100)%float;
         Js.parseFloat_toFixed1 (Js.ofZ 60000 / Js.ofZ 7)%float;
         Js.parseFloat_toFixed1 (Js.ofZ 60000 / Js.ofZ 500)%float;
         PrimFloat.infinity; PrimFloat.neg_infinity;
         (Js.ofZ 1 / Js.ofZ 3)%float;
         (Js.ofZ (- 5) / Js.ofZ 1000000)%float;
         (Js.ofZ 1 / Js.ofZ 10000000)%float;
         (Js.ofZ 1000000000000000 * Js.ofZ 1000000)%float;
         (Js.ofZ 123456789 * Js.ofZ 1000000000000)%float ]
     = [ "0"; "5"; "65535"; "-12"; "2.5"; "0.07"; "655.35"; "8571.4"; "120";
         "Infinity"; "-Infinity"; "0.3333333333333333"; "-0.000005"; "1e-7";
         "1e+21"; "123456789000000000000" ]%string.
Proof. vm_compute. reflexivity. Qed.

(** The row of a tick after a count line, when every value was the
    default before it. *)
Lemma row_after_count (line : string) (t now : Z) (w1 : World) (fd : nat) :
  layout w1 ->
  fileWriter (activityRecorder w1) = Some fd ->
  (forall m, reading m w1 = Some PrimFloat.zero) ->
  Js.startsWith "IDD140" line = true ->
  Driver.decode line <> 0 ->
  exists w',
    SingleFile.record Js.shortest now (Driver.onData line t w1) = Ok w'
    /\ files w' =
         write_all fd
           [ ("Data,1,record,timestamp," ++ Js.dq
              ++ Js.intToString (now / 1000 - 631065600) ++ Js.dq
              ++ ",s,")%string;
             ("distance," ++ Js.dq ++ "0" ++ Js.dq ++ ",m,")%string;
             ("power," ++ Js.dq ++ "0" ++ Js.dq ++ ",watts,")%string;
             ("total_cycles," ++ Js.dq ++ printed (Js.ofZ (Driver.decode line))
              ++ Js.dq ++ ",cycles,")%string;
             ("speed," ++ Js.dq ++ "0" ++ Js.dq ++ ",m/s,")%string;
             ("cadence," ++ Js.dq ++ "0" ++ Js.dq ++ ",spm,")%string;
             ("heart_rate," ++ Js.dq ++ "0" ++ Js.dq ++ ",bpm,")%string;
             Js.LF ]
           (files (Driver.onData line t w1)).
Proof.
  intros H1 Hfd1 Hzero Hline Hc.
  assert (Driver.onData line t w1
          = mqtt_publish (topic WaterRowerS4 total_cycles)
              (Js.ofZ (Driver.decode line))
              (assign (slot total_cycles) (Js.ofZ (Driver.decode line)) w1))
    as Hw.
  { rewrite (onData_rule R_IDD140) by exact Hline.
    cbn [action]. apply plain_branch; [exact H1|cbn; tauto]. }
  rewrite Hw.
  set (w := mqtt_publish _ _ _).
  assert (layout w) as H.
  { apply layout_mqtt_publish, layout_assign, H1. }
  assert (forall m, cached m w
                    = if decide (total_cycles = m)
                      then Some (Js.ofZ (Driver.decode line))
                      else Some PrimFloat.zero) as Hcached.
  { intros m. rewrite cached_reading by exact H.
    unfold w. rewrite reading_mqtt_publish, reading_assign by exact H1.
    case_decide; [reflexivity|apply Hzero]. }
  assert (fileWriter (activityRecorder w) = Some fd) as Hfd by exact Hfd1.
  clearbody w.
  destruct (count_is_number (Driver.decode line) (decode_range line))
    as [Hnan Hnz].
  apply Z.eqb_neq in Hc. rewrite Hc in Hnz.
  destruct (record_row now w fd PrimFloat.zero PrimFloat.zero
              (Js.ofZ (Driver.decode line)) PrimFloat.zero PrimFloat.zero
              PrimFloat.zero H Hfd)
    as (w' & Hrec & _ & Hfiles);
    try (rewrite Hcached; reflexivity); try exact Hnz.
  exists w'. split; [exact Hrec|]. rewrite Hfiles.
  unfold unless_NaN. rewrite Hnan.
  change (Js.isNaN PrimFloat.zero) with false.
  change (printed PrimFloat.zero) with "0"%string.
  reflexivity.
Qed.

(** The first row of a first session. *)
Lemma first_row (now0 now1 now2 : Z) (line : string) (t now : Z) :
  Js.startsWith "IDD140" line = true ->
  Driver.decode line <> 0 ->
  let w :=
    Driver.onData line t
      (world_of (SingleFile.start now1 now2 (Driver.start true (boot now0)))) in
  exists w',
    SingleFile.record Js.shortest now w = Ok w'
    /\ files w' =
         write_all 0
           [ ("Data,1,record,timestamp," ++ Js.dq
              ++ Js.intToString (now / 1000 - 631065600) ++ Js.dq
              ++ ",s,")%string;
             ("distance," ++ Js.dq ++ "0" ++ Js.dq ++ ",m,")%string;
             ("power," ++ Js.dq ++ "0" ++ Js.dq ++ ",watts,")%string;
             ("total_cycles," ++ Js.dq ++ printed (Js.ofZ (Driver.decode line))
              ++ Js.dq ++ ",cycles,")%string;
             ("speed," ++ Js.dq ++ "0" ++ Js.dq ++ ",m/s,")%string;
             ("cadence," ++ Js.dq ++ "0" ++ Js.dq ++ ",spm,")%string;
             ("heart_rate," ++ Js.dq ++ "0" ++ Js.dq ++ ",bpm,")%string;
             Js.LF ]
           (files w).
Proof.
  intros Hline Hc.
  destruct (first_session now0 now1 now2) as (H1 & Hfd1 & Hzero).
  exact (row_after_count line t now _ 0%nat H1 Hfd1 Hzero Hline Hc).
Qed.

(** C1, as amended.  On a tick of the recorder whose [record] has a body
    (the single-file build), with a session open:
    - if the cached total_cycles is 0, nothing is written;
    - otherwise exactly one row is written on the stream: the timestamp,
      then, in the order distance, power, total_cycles, speed, cadence,
      heart_rate, one field for each metric whose cached value is not NaN,
      made of the name, the cached value between double quotes as the
      language prints the number, and the unit, then the line end; a metric
      whose cached value is NaN has no field in the row;
    - numbers print as their shortest decimal: counts as their digits, a
      speed of 250 cm/s as 2.5, the cadence of strokes 7 ms apart as 8571.4,
      the default as 0;
    - so the first tick after the stroke count of a first session has become
      nonzero writes one row with all six fields, 0 for every metric that
      no line has updated. *)
Theorem record_tick :
  (forall now w fd v,
     layout w -> fileWriter (activityRecorder w) = Some fd ->
     cached total_cycles w = Some v -> Js.isZero v = true ->
     SingleFile.record Js.shortest now w
     = Ok (console_log "No activity detected yet, skipping data point." w)
     /\ files (world_of (SingleFile.record Js.shortest now w)) = files w)
  /\ (forall now w fd vd vp vc vs vk vh,
     layout w -> fileWriter (activityRecorder w) = Some fd ->
     cached distance w = Some vd -> cached power w = Some vp ->
     cached total_cycles w = Some vc -> cached speed w = Some vs ->
     cached cadence w = Some vk -> cached heart_rate w = Some vh ->
     Js.isZero vc = false ->
     exists w',
       SingleFile.record Js.shortest now w = Ok w'
       /\ heap w' = heap w
       /\ files w' =
            write_all fd
              ([("Data,1,record,timestamp," ++ Js.dq
                 ++ Js.intToString (now / 1000 - 631065600) ++ Js.dq
                 ++ ",s,")%string]
               ++ unless_NaN vd
                    ("distance," ++ Js.dq ++ printed vd ++ Js.dq ++ ",m,")%string
               ++ unless_NaN vp
                    ("power," ++ Js.dq ++ printed vp ++ Js.dq ++ ",watts,")%string
               ++ unless_NaN vc
                    ("total_cycles," ++ Js.dq ++ printed vc ++ Js.dq
                     ++ ",cycles,")%string
               ++ unless_NaN vs
                    ("speed," ++ Js.dq ++ printed vs ++ Js.dq ++ ",m/s,")%string
               ++ unless_NaN vk
                    ("cadence," ++ Js.dq ++ printed vk ++ Js.dq ++ ",spm,")%string
               ++ unless_NaN vh
                    ("heart_rate," ++ Js.dq ++ printed vh ++ Js.dq
                     ++ ",bpm,")%string
               ++ [Js.LF])
              (files w))
  /\ (forall c, 0 <= c < 10000 -> printed (Js.ofZ c) = Js.intToString c)
  /\ List.map printed
       [ PrimFloat.zero; Js.ofZ 5; Js.ofZ 65535; Js.ofZ (- 12);
         (Js.ofZ 250 / Js.ofZ 100)%float;
         (Js.ofZ 7 / Js.ofZ 100)%float;
         (Js.ofZ 65535 / Js.ofZ 100)%float;
         Js.parseFloat_toFixed1 (Js.ofZ 60000 / Js.ofZ 7)%float;
         Js.parseFloat_toFixed1 (Js.ofZ 60000 / Js.ofZ 500)%float;
         PrimFloat.infinity; PrimFloat.neg_infinity;
         (Js.ofZ 1 / Js.ofZ 3)%float;
         (Js.ofZ (- 5) / Js.ofZ 1000000)%float;
         (Js.ofZ 1 / Js.ofZ 10000000)%float;
         (Js.ofZ 1000000000000000 * Js.ofZ 1000000)%float;
         (Js.ofZ 123456789 * Js.ofZ 1000000000000)%float ]
     = [ "0"; "5"; "65535"; "-12"; "2.5"; "0.07"; "655.35"; "8571.4"; "120";
         "Infinity"; "-Infinity"; "0.3333333333333333"; "-0.000005"; "1e-7";
         "1e+21"; "123456789000000000000" ]%string
  /\ (forall now0 now1 now2 line t now,
     Js.startsWith "IDD140" line = true ->
     Driver.decode line <> 0 ->
     let w :=
       Driver.onData line t
         (world_of (SingleFile.start now1 now2 (Driver.start true (boot now0)))) in
     exists w',
       SingleFile.record Js.shortest now w = Ok w'
       /\ files w' =
            write_all 0
              [ ("Data,1,record,timestamp," ++ Js.dq
                 ++ Js.intToString (now / 1000 - 631065600) ++ Js.dq
                 ++ ",s,")%string;
                ("distance," ++ Js.dq ++ "0" ++ Js.dq ++ ",m,")%string;
                ("power," ++ Js.dq ++ "0" ++ Js.dq ++ ",watts,")%string;
                ("total_cycles," ++ Js.dq ++ printed (Js.ofZ (Driver.decode line))
                 ++ Js.dq ++ ",cycles,")%string;
                ("speed," ++ Js.dq ++ "0" ++ Js.dq ++ ",m/s,")%string;
                ("cadence," ++ Js.dq ++ "0" ++ Js.dq ++ ",spm,")%string;
                ("heart_rate," ++ Js.dq ++ "0" ++ Js.dq ++ ",bpm,")%string;
                Js.LF ]
              (files w)).
Proof.
  split; [|split; [|split; [|split]]].
  - intros now w fd v H Hfd Hv Hz.
    pose proof (record_idle now w v H Hv Hz) as Hrec.
    split; [exact Hrec|]. rewrite Hrec. reflexivity.
  - intros now w fd vd vp vc vs vk vh. apply record_row.
  - exact count_digits.
  - exact printed_numbers.
  - exact first_row.
Qed.

Lemma record_tick_witness :
  let w :=
    Driver.onData "IDD14A00FA" 40
      (Driver.onData "IDD1400005" 30
         (world_of (SingleFile.start 10 20 (Driver.start true (boot 0))))) in
  exists w',
    SingleFile.record Js.shortest 631065601000 w = Ok w'
    /\ heap w' = heap w
    /\ files w' =
         write_all 0
           [ ("Data,1,record,timestamp," ++ Js.dq ++ "1" ++ Js.dq ++ ",s,")%string;
             ("distance," ++ Js.dq ++ "0" ++ Js.dq ++ ",m,")%string;
             ("power," ++ Js.dq ++ "0" ++ Js.dq ++ ",watts,")%string;
             ("total_cycles," ++ Js.dq ++ "5" ++ Js.dq ++ ",cycles,")%string;
             ("speed," ++ Js.dq ++ "2.5" ++ Js.dq ++ ",m/s,")%string;
             ("cadence," ++ Js.dq ++ "0" ++ Js.dq ++ ",spm,")%string;
             ("heart_rate," ++ Js.dq ++ "0" ++ Js.dq ++ ",bpm,")%string;
             Js.LF ]
           (files w).
Proof.
  intros w.
  assert (layout w) as H by (repeat split).
  destruct (proj1 (proj2 record_tick) 631065601000 w 0%nat
              PrimFloat.zero PrimFloat.zero (Js.ofZ 5)
              (Js.ofZ 250 / Js.ofZ 100)%float PrimFloat.zero PrimFloat.zero H)
    as (w' & Hrec & Hheap & Hfiles); try (vm_compute; reflexivity).
  exists w'. split; [exact Hrec|]. split; [exact Hheap|].
  rewrite Hfiles. vm_compute. reflexivity.
Defined.

(** The claim as first stated fails: a message on the bus can store NaN in
    an object of the device set, and the row of the next tick then has five
    fields, none for that metric. *)
Lemma record_row_can_lack_a_metric :
  let w :=
    world_of
      (run Js.shortest Single
         [ DriverStart true; RecorderStart 10 20; SerialData "IDD1400005" 30;
           MqttMessage "waterrower/power" PrimFloat.nan ]
         (boot 0)) in
  cached total_cycles w = Some (Js.ofZ 5)
  /\ (exists v, cached power w = Some v /\ Js.isNaN v = true)
  /\ exists w',
       SingleFile.record Js.shortest 631065601000 w = Ok w'
       /\ files w' =
            write_all 0
              [ ("Data,1,record,timestamp," ++ Js.dq ++ "1" ++ Js.dq
                 ++ ",s,")%string;
                ("distance," ++ Js.dq ++ "0" ++ Js.dq ++ ",m,")%string;
                ("total_cycles," ++ Js.dq ++ "5" ++ Js.dq ++ ",cycles,")%string;
                ("speed," ++ Js.dq ++ "0" ++ Js.dq ++ ",m/s,")%string;
                ("cadence," ++ Js.dq ++ "0" ++ Js.dq ++ ",spm,")%string;
                ("heart_rate," ++ Js.dq ++ "0" ++ Js.dq ++ ",bpm,")%string;
                Js.LF ]
              (files w).
Proof.
  intros w. split; [vm_compute; reflexivity|]. split.
  - exists PrimFloat.nan. split; vm_compute; reflexivity.
  - eexists. split; vm_compute; reflexivity.
Qed.

(* ================================================================== *)
(** * The recorder reads the devices' own objects *)
(* ================================================================== *)

Section Sharing.

Variable shortest : float -> string.
Variable build : Build.

(** Every state the program reaches has the layout of [boot]. *)
Lemma layout_run (es : list Event) (now0 : Z) :
  layout (world_of (run shortest build es (boot now0))).
Proof.
  apply (layout_shape (boot now0)); [apply shape_run|apply layout_boot].
Qed.

(** The constructor copies references, not objects. *)
Lemma new_takes_references (devices : list Device) (now : Z) (w : World)
    (d : Device) (r : ref) :
  In d devices -> In r (device_measurements d w) ->
  In r (rec_measurements (activityRecorder (Recorder.new devices now w)))
  /\ heap (Recorder.new devices now w) = heap w.
Proof.
  intros Hd Hr. split; [|reflexivity].
  cbn. apply in_flat_map. exists d. split; assumption.
Qed.

(** C9. The recorder's measurement list holds the references of the
    devices' own objects.  So in every state the program reaches, after any
    sequence of callbacks, the value the recorder reads for a metric is the
    value its owning device holds; a value the driver stores is what the
    next tick reads, with no bus message delivered in between. *)
Theorem recorder_reads_device_objects (es : list Event) (now0 : Z) :
  let w := world_of (run shortest build es (boot now0)) in
  rec_measurements (activityRecorder w)
  = hr_measurements w ++ wr_measurements (waterRower w)
  /\ (forall m, cached m w = held m w /\ is_Some (cached m w))
  /\ (forall m v, cached m (assign (slot m) v w) = Some v)
  /\ (forall line now,
       Js.startsWith "IDD140" line = true ->
       cached total_cycles (Driver.onData line now w)
       = Some (Js.ofZ (Driver.decode line))).
Proof.
  intros w. pose proof (layout_run es now0) as H. fold w in H.
  split; [|split; [|split]].
  - destruct H as (_ & _ & -> & -> & -> & _). reflexivity.
  - intros m. rewrite cached_reading, held_reading by assumption.
    split; [reflexivity|].
    destruct (slot_lookup w m H) as [v Hv]. unfold reading. rewrite Hv.
    cbn. eauto.
  - intros m v. rewrite cached_reading by (apply layout_assign, H).
    rewrite reading_assign by assumption. case_decide; congruence.
  - intros line now Hline.
    rewrite cached_reading
      by (eapply layout_shape; [apply shape_onData|exact H]).
    apply stroke_count_set; assumption.
Qed.

End Sharing.

Lemma recorder_reads_device_objects_witness :
  cached total_cycles
    (Driver.onData "IDD1400007" 9
       (world_of
          (run (fun _ => EmptyString) Single
             [DriverStart true; RecorderStart 1 2; SerialData "SS" 3]
             (boot 0))))
  = Some 7%float.
Proof.
  exact (proj2 (proj2 (proj2
           (recorder_reads_device_objects (fun _ => EmptyString) Single
              [DriverStart true; RecorderStart 1 2; SerialData "SS" 3] 0)))
           "IDD1400007"%string 9 eq_refl).
Defined.

(* ================================================================== *)
(** * Rounding to one decimal *)
(* ================================================================== *)

(** The digits that [toFixed(1)] prints are the tenths nearest to the
    number: [n = Js.tenths m e] is within one half of [10 * m * 2^e]. *)
Lemma tenths_nearest (m : positive) (e : Z) :
  e < 0 ->
  Z.abs (2 * (Js.tenths m e * 2 ^ (- e)) - 20 * Z.pos m) <= 2 ^ (- e).
Proof.
  intros He. unfold Js.tenths.
  destruct (0 <=? e) eqn:E; [apply Z.leb_le in E; lia|].
  replace (- e + 1) with (Z.succ (- e)) by lia.
  rewrite Z.pow_succ_r by lia.
  assert (0 < 2 ^ (- e)) as Hpos by (apply Z.pow_pos_nonneg; lia).
  set (k := 2 ^ (- e)) in *.
  pose proof (Z.div_mod (20 * Z.pos m + k) (2 * k) ltac:(lia)) as Hdm.
  pose proof (Z.mod_pos_bound (20 * Z.pos m + k) (2 * k) ltac:(lia)) as Hb.
  set (n := (20 * Z.pos m + k) / (2 * k)) in *.
  lia.
Qed.
